(** * Colour: Rec. 2020, OSA UCS and the verbose utilities

    A shallow embedding of

    - [colour/models/dataset/rec_2020.py] (the Rec. 2020 constants and its
      transfer-function pair),
    - [colour/models/osa_ucs.py] (CIE XYZ <-> OSA UCS),
    - [colour/utilities/verbose.py] ([message_box], [suppress_warnings],
      [numpy_print_options]).

    Conventions.  A Python float is a real number ([R]), without rounding
    and without the range of doubles; a NumPy array element is an
    [npfloat], a real or a non-finite value ([None], standing for [nan] and
    the infinities, which NumPy produces with a warning instead of
    raising).  Module attributes live in a record [Globals] threaded
    through every call, so that "this call changes no module constant" is a
    statement about the returned record.  Exceptions are values of
    [result]. *)

From Stdlib Require Import Reals Lra Lia ZArith String Ascii Bool List.
From Stdlib Require Import FunctionalExtensionality.
Import ListNotations.

(** ** Python results and module state *)

Inductive exn : Type :=
| ValueError
| LinAlgError
| TypeError.

Inductive result (A : Type) : Type :=
| Ok (a : A)
| Raise (e : exn).

Arguments Ok {A} a.
Arguments Raise {A} e.

(** [Structure(alpha=..., beta=...)] of [rec_2020.py]. *)
Record Structure : Type := mkStructure {
  alpha : bool -> R;
  beta : bool -> R
}.

Definition vec3 : Type := (R * R * R)%type.
Definition mat3 : Type := (vec3 * vec3 * vec3)%type.

(** The module attributes of [osa_ucs.py] and [rec_2020.py]. *)
Record Globals : Type := mkGlobals {
  M_XYZ_TO_RGB_OSA_UCS : mat3;
  REC_2020_PRIMARIES : list (R * R);
  REC_2020_WHITEPOINT : R * R;
  REC_2020_TO_XYZ_MATRIX : mat3;
  XYZ_TO_REC_2020_MATRIX : mat3;
  REC_2020_CONSTANTS : Structure
}.

(** A Python computation: it may raise, and it may rebind module
    attributes. *)
Definition Py (A : Type) : Type := Globals -> result A * Globals.

Definition ret {A : Type} (a : A) : Py A := fun g => (Ok a, g).

Definition raise {A : Type} (e : exn) : Py A := fun g => (Raise e, g).

Definition bind {A B : Type} (m : Py A) (k : A -> Py B) : Py B :=
  fun g =>
    match m g with
    | (Ok a, g') => k a g'
    | (Raise e, g') => (Raise e, g')
    end.

Definition read {A : Type} (attr : Globals -> A) : Py A :=
  fun g => (Ok (attr g), g).

Notation "x <- m ;; k" := (bind m (fun x => k))
  (at level 61, m at next level, right associativity).

(** [returned m g] is what the call returns when run in the module state
    [g], [after m g] the module state it leaves. *)
Definition returned {A : Type} (m : Py A) (g : Globals) : result A :=
  fst (m g).
Definition after {A : Type} (m : Py A) (g : Globals) : Globals := snd (m g).

(** A list comprehension [[f(x) for x in xs]]: the calls run in order, the
    first exception ends the loop. *)
Fixpoint comprehension {A B : Type} (f : A -> Py B) (xs : list A)
  : Py (list B) :=
  match xs with
  | [] => ret []
  | x :: rest =>
      y <- f x ;;
      ys <- comprehension f rest ;;
      ret (y :: ys)
  end.

(** ** rec_2020.py *)

Open Scope R_scope.

(** [REC_2020_CONSTANTS = Structure(alpha=lambda x: 1.099 if x else 1.0993,
                                    beta=lambda x: 0.018 if x else 0.0181)] *)
Definition REC_2020_CONSTANTS_value : Structure :=
  {| alpha := fun x => if x then 1.099 else 1.0993;
     beta := fun x => if x then 0.018 else 0.0181 |}.

(** Python's [x ** y] on floats, for the two exponents of this module
    ([0.45] and [1 / 0.45], both positive and not integers): a negative base
    is refused (ValueError), [0.0 ** y] is [0.0].

    Floats are real numbers here, so the power is the exact one: it is not
    rounded, and the OverflowError that Python raises when the power leaves
    the range of doubles (with the exponent [1 / 0.45], for a base above
    about 5.2e138) has no counterpart.  The statements below that reach
    arguments of that size keep them under [float_pow_range]. *)
Definition float_pow (x y : R) : Py R :=
  if Rlt_dec x 0 then raise ValueError
  else if Req_dec_T x 0 then ret 0
  else ret (Rpower x y).

Definition _rec_2020_transfer_function
    (value : R) (is_10_bits_system : bool) : Py R :=
  c <- read REC_2020_CONSTANTS ;;
  if Rlt_dec value (beta c is_10_bits_system) then ret (value * 4.5)
  else
    p <- float_pow value 0.45 ;;
    ret (alpha c is_10_bits_system * p - (alpha c is_10_bits_system - 1)).

Definition _rec_2020_inverse_transfer_function
    (value : R) (is_10_bits_system : bool) : Py R :=
  c <- read REC_2020_CONSTANTS ;;
  if Rlt_dec value (beta c is_10_bits_system) then ret (value / 4.5)
  else
    float_pow
      ((value + (alpha c is_10_bits_system - 1)) / alpha c is_10_bits_system)
      (1 / 0.45).

Definition REC_2020_TRANSFER_FUNCTION := _rec_2020_transfer_function.
Definition REC_2020_INVERSE_TRANSFER_FUNCTION :=
  _rec_2020_inverse_transfer_function.

(** A bound on the arguments of the inverse transfer function under which
    its power stays in the range of doubles: the value at 1e138 is about
    3.8e306, and from about 5.7e138 on the power is above the largest
    double, about 1.8e308. *)
Definition float_pow_range : R := 10 ^ 138.

(** The largest double, [sys.float_info.max]. *)
Definition float_max : R := (2 - / 2 ^ 52) * 2 ^ 1023.

(** Encoding and decoding again, as a caller composes the pair. *)
Definition rec_2020_round_trip (x : R) (is_10_bits_system : bool) : Py R :=
  v <- REC_2020_TRANSFER_FUNCTION x is_10_bits_system ;;
  REC_2020_INVERSE_TRANSFER_FUNCTION v is_10_bits_system.

(** *** The basis-change matrices, built when the module is loaded *)

Definition det3 (m : mat3) : R :=
  let '((a, b, c), (d, e, f), (g, h, i)) := m in
  a * (e * i - f * h) - b * (d * i - f * g) + c * (d * h - e * g).

(** [np.linalg.inv] on a 3x3 array, in exact arithmetic: the inverse, or
    LinAlgError for a singular matrix. *)
Definition linalg_inv (m : mat3) : result mat3 :=
  let '((a, b, c), (d, e, f), (g, h, i)) := m in
  let D := det3 m in
  if Req_dec_T D 0 then Raise LinAlgError
  else
    Ok (((e * i - f * h) / D, (c * h - b * i) / D, (b * f - c * e) / D),
        ((f * g - d * i) / D, (a * i - c * g) / D, (c * d - a * f) / D),
        ((d * h - e * g) / D, (b * g - a * h) / D, (a * e - b * d) / D)).

(** The matrix product [np.dot(p, q)] of two 3x3 arrays. *)
Definition dot3 (p q : mat3) : mat3 :=
  let '((a, b, c), (d, e, f), (g, h, i)) := p in
  let '((a', b', c'), (d', e', f'), (g', h', i')) := q in
  ((a * a' + b * d' + c * g', a * b' + b * e' + c * h',
    a * c' + b * f' + c * i'),
   (d * a' + e * d' + f * g', d * b' + e * e' + f * h',
    d * c' + e * f' + f * i'),
   (g * a' + h * d' + i * g', g * b' + h * e' + i * h',
    g * c' + h * f' + i * i')).

Definition identity3 : mat3 := ((1, 0, 0), (0, 1, 0), (0, 0, 1)).

(** [M_XYZ_TO_RGB_OSA_UCS] of [osa_ucs.py]. *)
Definition M_XYZ_TO_RGB_OSA_UCS_value : mat3 :=
  ((0.799, 0.4194, -0.1648),
   (-0.4493, 1.3265, 0.0927),
   (-0.1149, 0.3394, 0.717)).

Definition REC_2020_PRIMARIES_value : list (R * R) :=
  [(0.708, 0.292); (0.170, 0.797); (0.131, 0.046)].

Section ModuleLoad.

(** [ILLUMINANTS.get('CIE 1931 2 Degree Standard Observer').get('D65')] and
    [normalised_primary_matrix] come from [colour.colorimetry] and
    [colour.models]; this development treats both as parameters. *)
Variable ILLUMINANT_D65 : R * R.
Variable normalised_primary_matrix : list (R * R) -> R * R -> mat3.

(** Running the top-level statements of the two modules.  The only one that
    can fail is [np.linalg.inv]. *)
Definition load_modules : result Globals :=
  let primaries := REC_2020_PRIMARIES_value in
  let whitepoint := ILLUMINANT_D65 in
  let to_XYZ := normalised_primary_matrix primaries whitepoint in
  match linalg_inv to_XYZ with
  | Raise e => Raise e
  | Ok from_XYZ =>
      Ok {| M_XYZ_TO_RGB_OSA_UCS := M_XYZ_TO_RGB_OSA_UCS_value;
            REC_2020_PRIMARIES := primaries;
            REC_2020_WHITEPOINT := whitepoint;
            REC_2020_TO_XYZ_MATRIX := to_XYZ;
            XYZ_TO_REC_2020_MATRIX := from_XYZ;
            REC_2020_CONSTANTS := REC_2020_CONSTANTS_value |}
  end.

End ModuleLoad.

(** ** NumPy values *)

(** An array element: a real, or [None] for a non-finite value. *)
Definition npfloat : Type := option R.

Definition np_lift2 (op : R -> R -> R) (a b : npfloat) : npfloat :=
  match a, b with
  | Some x, Some y => Some (op x y)
  | _, _ => None
  end.

Definition np_add : npfloat -> npfloat -> npfloat := np_lift2 Rplus.
Definition np_sub : npfloat -> npfloat -> npfloat := np_lift2 Rminus.
Definition np_mul : npfloat -> npfloat -> npfloat := np_lift2 Rmult.

(** Division by zero gives an infinity or nan, with a warning. *)
Definition np_div (a b : npfloat) : npfloat :=
  match a, b with
  | Some x, Some y => if Req_dec_T y 0 then None else Some (x / y)
  | _, _ => None
  end.

(** [a ** y] for a positive exponent that is not an integer: nan for a
    negative base. *)
Definition np_power (a : npfloat) (y : R) : npfloat :=
  match a with
  | Some x =>
      if Rlt_dec x 0 then None
      else if Req_dec_T x 0 then Some 0
      else Some (Rpower x y)
  | None => None
  end.

(** [a ** 2]. *)
Definition np_square (a : npfloat) : npfloat := np_mul a a.

Definition np_sign (a : npfloat) : npfloat :=
  match a with
  | Some x =>
      Some (if Rlt_dec x 0 then -1 else if Req_dec_T x 0 then 0 else 1)
  | None => None
  end.

Definition np_abs (a : npfloat) : npfloat :=
  match a with
  | Some x => Some (Rabs x)
  | None => None
  end.

Definition np_scalar (x : R) : npfloat := Some x.

(** [np.dot] of two one-dimensional arrays: the lengths must agree. *)
Fixpoint np_dot (a b : list npfloat) : Py npfloat :=
  match a, b with
  | [], [] => ret (np_scalar 0)
  | x :: a', y :: b' =>
      s <- np_dot a' b' ;;
      ret (np_add (np_mul x y) s)
  | _, _ => raise ValueError
  end.

(** [a - b] on one-dimensional arrays of one length. *)
Fixpoint np_subtract (a b : list npfloat) : Py (list npfloat) :=
  match a, b with
  | [], [] => ret []
  | x :: a', y :: b' =>
      d <- np_subtract a' b' ;;
      ret (np_sub x y :: d)
  | _, _ => raise ValueError
  end.

(** [np.linalg.norm] of a one-dimensional array. *)
Definition linalg_norm (a : list npfloat) : npfloat :=
  match fold_right (fun x s => np_add (np_square x) s) (np_scalar 0) a with
  | Some s => Some (sqrt s)
  | None => None
  end.

(** An n-dimensional array: its shape and its elements in row-major
    order. *)
Record ndarray : Type := mkArray {
  shape : list nat;
  data : list npfloat
}.

Definition size_of (s : list nat) : nat := fold_right Nat.mul 1%nat s.

(** The array invariant: as many elements as the shape announces. *)
Definition well_formed (a : ndarray) : Prop :=
  length (data a) = size_of (shape a).

(** The rows of [a.reshape((-1, 3))]. *)
Fixpoint rows3 (l : list npfloat) : list (list npfloat) :=
  match l with
  | x :: y :: z :: rest => [x; y; z] :: rows3 rest
  | _ => []
  end.

(** [a.reshape((-1, 3))], as its rows: refused unless the number of elements
    is a multiple of 3. *)
Definition reshape_rows3 (a : ndarray) : Py (list (list npfloat)) :=
  if (length (data a) mod 3 =? 0)%nat then ret (rows3 (data a))
  else raise ValueError.

(** [np.array(rows)] for a list of one-dimensional arrays: a two-dimensional
    array when the rows have one length, shape [(0,)] for no rows. *)
Definition np_array (rows : list (list npfloat)) : Py ndarray :=
  match rows with
  | [] => ret {| shape := [0%nat]; data := [] |}
  | r :: _ =>
      if forallb (fun r' => (length r' =? length r)%nat) rows
      then ret {| shape := [length rows; length r]; data := concat rows |}
      else raise ValueError
  end.

(** [a.reshape(s)]: refused unless [s] has as many elements as [a]. *)
Definition reshape (a : ndarray) (s : list nat) : Py ndarray :=
  if (size_of s =? length (data a))%nat
  then ret {| shape := s; data := data a |}
  else raise ValueError.

(** ** osa_ucs.py *)

Notation "a [+] b" := (np_add a b) (at level 50, left associativity).
Notation "a [-] b" := (np_sub a b) (at level 50, left associativity).
Notation "a [*] b" := (np_mul a b) (at level 40, left associativity).
Notation "a [/] b" := (np_div a b) (at level 40, left associativity).
Notation "# x" := (np_scalar x) (at level 9, x at level 9, format "# x").

(** Keyword arguments, as a Python dict in insertion order. *)
Inductive py_value : Type :=
| PyBool (b : bool)
| PyInt (z : Z)
| PyFloat (r : R).

Definition dict : Type := list (string * py_value).

Fixpoint dict_set (k : string) (v : py_value) (d : dict) : dict :=
  match d with
  | [] => [(k, v)]
  | (k', v') :: d' =>
      if String.eqb k k' then (k, v) :: d' else (k', v') :: dict_set k v d'
  end.

(** [d.update(u)]. *)
Definition dict_update (d u : dict) : dict :=
  fold_left (fun acc kv => dict_set (fst kv) (snd kv) acc) u d.

(** [tsplit], [tstack] and [dot_vector] are the array helpers of
    [colour.utilities]; they are used here on one-dimensional arrays only:
    [tsplit] hands out the three components that [x, y, Y = ...] unpacks,
    [tstack] stacks three values, [dot_vector] is the matrix-vector
    product. *)
Definition tsplit (a : list npfloat) : Py (npfloat * npfloat * npfloat) :=
  match a with
  | [x; y; z] => ret (x, y, z)
  | _ => raise ValueError
  end.

Definition tstack (a : npfloat * npfloat * npfloat) : list npfloat :=
  let '(x, y, z) := a in [x; y; z].

Definition dot_vector (m : mat3) (v : list npfloat) : Py (list npfloat) :=
  let '((a, b, c), (d, e, f), (g, h, i)) := m in
  match v with
  | [X; Y; Z] =>
      ret [#a [*] X [+] #b [*] Y [+] #c [*] Z;
           #d [*] X [+] #e [*] Y [+] #f [*] Z;
           #g [*] X [+] #h [*] Y [+] #i [*] Z]
  | _ => raise ValueError
  end.

Section OsaUcs.

(** [colour.models.XYZ_to_xyY], and [scipy.optimize.fmin] called as
    [fmin(func, x0, args, **settings)] with [args] already given to
    [func]: parameters of the development. *)
Variable XYZ_to_xyY : list npfloat -> Py (list npfloat).
Variable fmin :
  (list npfloat -> Py npfloat) -> list npfloat -> dict -> Py (list npfloat).

Definition XYZ_to_OSA_UCS (XYZ : list npfloat) : Py (list npfloat) :=
  xyY <- XYZ_to_xyY XYZ ;;
  s <- tsplit xyY ;;
  let '(x, y, Y) := s in
  let Y_0 :=
    Y [*] (#4.4934 [*] np_square x [+] #4.3034 [*] np_square y
           [-] #4.276 [*] x [*] y [-] #1.3744 [*] x
           [-] #2.5643 [*] y [+] #1.8103) in
  let o_3 := 1 / 3 in
  let Y_0_es := np_power Y_0 o_3 [-] #(2 / 3) in
  let Y_0_s := Y_0 [-] #30 in
  let Lambda :=
    #5.9 [*] (Y_0_es
              [+] np_sign Y_0_s [*] #0.042 [*] np_power (np_abs Y_0_s) o_3) in
  M <- read M_XYZ_TO_RGB_OSA_UCS ;;
  RGB <- dot_vector M XYZ ;;
  let RGB_3 := map (fun c => np_power c (1 / 3)) RGB in
  let C := Lambda [/] (#5.9 [*] Y_0_es) in
  let L := (Lambda [-] #14.4) [/] #(Rpower 2 (1 / 2)) in
  dj <- np_dot RGB_3 [#1.7; #8; #(-9.7)] ;;
  let j := C [*] dj in
  dg <- np_dot RGB_3 [#(-13.7); #17.7; #(-4)] ;;
  let g := C [*] dg in
  ret (tstack (L, j, g)).

(** The nested [function_error(XYZ, Ljg)] of [OSA_UCS_to_XYZ]. *)
Definition function_error (XYZ Ljg : list npfloat) : Py npfloat :=
  r <- XYZ_to_OSA_UCS XYZ ;;
  d <- np_subtract r Ljg ;;
  ret (linalg_norm d).

Definition x_0 : list npfloat := [#30; #30; #30].

Definition optimisation_settings (optimisation_parameters : option dict)
  : dict :=
  let settings := [("disp"%string, PyBool false)] in
  match optimisation_parameters with
  | Some parameters => dict_update settings parameters
  | None => settings
  end.

(** [np.asarray] leaves an array as it is, and so does [np.atleast_1d] on
    the two-dimensional result of the reshape. *)
Definition OSA_UCS_to_XYZ (Ljg : ndarray)
    (optimisation_parameters : option dict) : Py ndarray :=
  let shape_ := shape Ljg in
  Ljg_rows <- reshape_rows3 Ljg ;;
  let settings := optimisation_settings optimisation_parameters in
  XYZ_rows <-
    comprehension
      (fun Ljg_i => fmin (fun XYZ => function_error XYZ Ljg_i) x_0 settings)
      Ljg_rows ;;
  XYZ <- np_array XYZ_rows ;;
  reshape XYZ shape_.

(** [OSA_UCS_to_XYZ(XYZ_to_OSA_UCS(XYZ))] for one tristimulus value. *)
Definition OSA_UCS_round_trip (XYZ : list npfloat)
    (optimisation_parameters : option dict) : Py ndarray :=
  Ljg <- XYZ_to_OSA_UCS XYZ ;;
  OSA_UCS_to_XYZ {| shape := [length Ljg]; data := Ljg |}
                 optimisation_parameters.

(** The four conversion functions, as calls. *)
Inductive conversion_call : Type :=
| Call_XYZ_to_OSA_UCS (XYZ : list npfloat)
| Call_OSA_UCS_to_XYZ (Ljg : ndarray) (optimisation_parameters : option dict)
| Call_REC_2020_TRANSFER_FUNCTION (value : R) (is_10_bits_system : bool)
| Call_REC_2020_INVERSE_TRANSFER_FUNCTION
    (value : R) (is_10_bits_system : bool).

(** What a call returns, with the detail of the returned type forgotten. *)
Inductive returned_value : Type :=
| Vector (v : list npfloat)
| Array (a : ndarray)
| Float (x : R).

Definition run (c : conversion_call) : Py returned_value :=
  match c with
  | Call_XYZ_to_OSA_UCS XYZ =>
      r <- XYZ_to_OSA_UCS XYZ ;; ret (Vector r)
  | Call_OSA_UCS_to_XYZ Ljg parameters =>
      r <- OSA_UCS_to_XYZ Ljg parameters ;; ret (Array r)
  | Call_REC_2020_TRANSFER_FUNCTION value b =>
      r <- REC_2020_TRANSFER_FUNCTION value b ;; ret (Float r)
  | Call_REC_2020_INVERSE_TRANSFER_FUNCTION value b =>
      r <- REC_2020_INVERSE_TRANSFER_FUNCTION value b ;; ret (Float r)
  end.

End OsaUcs.

(** ** verbose.py: message_box *)

Definition newline : ascii := "010"%char.
Definition carriage_return : ascii := "013"%char.
Definition tab : ascii := "009"%char.

(** [c * n] for a one-character string [c]: empty when [n <= 0]. *)
Fixpoint replicate (n : nat) (c : ascii) : string :=
  match n with
  | O => EmptyString
  | S n' => String c (replicate n' c)
  end.

Definition str_mul (c : ascii) (n : Z) : string := replicate (Z.to_nat n) c.

Definition len (s : string) : Z := Z.of_nat (String.length s).

(** [s.split("\n")]. *)
Fixpoint split_lines (s : string) : list string :=
  match s with
  | EmptyString => [EmptyString]
  | String c rest =>
      if Ascii.eqb c newline then EmptyString :: split_lines rest
      else
        match split_lines rest with
        | [] => [String c EmptyString]
        | line :: lines => String c line :: lines
        end
  end.

(** [s.expandtabs()]: a tab becomes the spaces that reach the next multiple
    of 8; a line break resets the column. *)
Fixpoint expandtabs_from (column : nat) (s : string) : string :=
  match s with
  | EmptyString => EmptyString
  | String c rest =>
      if Ascii.eqb c tab then
        let incr := (8 - column mod 8)%nat in
        append (replicate incr " "%char)
               (expandtabs_from (column + incr) rest)
      else if Ascii.eqb c newline || Ascii.eqb c carriage_return then
        String c (expandtabs_from 0 rest)
      else String c (expandtabs_from (column + 1) rest)
  end.

Definition expandtabs (s : string) : string := expandtabs_from 0 s.

(** The nested [inner(text)] of [message_box]:
    ['*{0}{1}{2}{0}*'.format(' ' * padding, text,
                             ' ' * (width - len(text) - padding * 2 - 2))]. *)
Definition inner (width padding : Z) (text : string) : string :=
  let pad := str_mul " "%char padding in
  let fill := str_mul " "%char (width - len text - padding * 2 - 2)%Z in
  append "*" (append pad (append text (append fill (append pad "*")))).

(** The chain of the wrapped lines, after an empty list of wrapped lines was
    replaced by the string [' '], whose iteration gives the one-character
    string [' ']. *)
Definition chain_lines (lines : list (list string)) : list string :=
  flat_map
    (fun line => match line with [] => [" "%string] | _ => line end)
    lines.

Fixpoint sequence {A : Type} (rs : list (result A)) : result (list A) :=
  match rs with
  | [] => Ok []
  | Ok a :: rest =>
      match sequence rest with
      | Ok l => Ok (a :: l)
      | Raise e => Raise e
      end
  | Raise e :: _ => Raise e
  end.

Section MessageBox.

(** The line-filling step of [textwrap.TextWrapper] (splitting the text in
    chunks and packing them in lines of at most [width] characters, long
    words left whole, as [break_long_words=False] asks): a parameter. *)
Variable wrap_chunks : Z -> string -> list string.

(** [TextWrapper(width=width, break_long_words=False,
                 replace_whitespace=False).wrap(text)]: tabs are expanded
    first ([expand_tabs] keeps its default), and a width that is not
    positive is refused. *)
Definition TextWrapper_wrap (width : Z) (text : string)
  : result (list string) :=
  if (width <=? 0)%Z then Raise ValueError
  else Ok (wrap_chunks width (expandtabs text)).

(** The segments [message_box] prints between its two blank lines. *)
Definition wrapped_segments (message : string) (width padding : Z)
  : result (list string) :=
  let ideal_width := (width - padding * 2 - 2)%Z in
  match sequence (map (TextWrapper_wrap ideal_width) (split_lines message))
  with
  | Ok lines => Ok (chain_lines lines)
  | Raise e => Raise e
  end.

(** [message_box(message, width, padding)]: what it returns, and the lines
    it hands to [print_callable], in order. *)
Definition message_box (message : string) (width padding : Z)
  : result bool * list string :=
  let printed := [str_mul "="%char width; inner width padding ""] in
  match wrapped_segments message width padding with
  | Raise e => (Raise e, printed)
  | Ok segments =>
      let printed :=
        printed
        ++ map (fun line => inner width padding (expandtabs line)) segments in
      (Ok true, printed ++ [inner width padding ""; str_mul "="%char width])
  end.

End MessageBox.

(** ** verbose.py: the context managers *)

(** The first argument of [filterwarnings]. *)
Inductive action : Type :=
| ignore
| default.

Inductive category : Type :=
| ColourWarning
| Warning.

(** An entry of [warnings.filters]; message, module and line number keep
    their defaults in every call of this module. *)
Definition filter_entry : Type := (action * category)%type.

Definition filter_entry_eqb (a b : filter_entry) : bool :=
  match a, b with
  | (ignore, ColourWarning), (ignore, ColourWarning)
  | (ignore, Warning), (ignore, Warning)
  | (default, ColourWarning), (default, ColourWarning)
  | (default, Warning), (default, Warning) => true
  | _, _ => false
  end.

(** [l.remove(x)] when [x] is in [l], [l] otherwise. *)
Fixpoint remove_first (x : filter_entry) (l : list filter_entry)
  : list filter_entry :=
  match l with
  | [] => []
  | y :: l' => if filter_entry_eqb x y then l' else y :: remove_first x l'
  end.

(** A reference to a list object. *)
Definition ref : Type := nat.

Section ContextManagers.

(** NumPy's print options and the keyword arguments of
    [np.set_printoptions]: parameters.  [get_printoptions] returns the
    current options as keyword arguments. *)
Variable printoptions : Type.
Variable kwargs : Type.
Variable get_printoptions : printoptions -> kwargs.
Variable set_printoptions :
  kwargs -> printoptions -> result unit * printoptions.

(** The interpreter state these context managers touch.  [warnings.filters]
    is a name bound to a list object; the list objects live in [heap]. *)
Record interpreter : Type := mkInterpreter {
  heap : ref -> list filter_entry;
  warnings_filters : ref;
  warnings_showwarning : nat;
  np_printoptions : printoptions
}.

(** A block of statements. *)
Definition block : Type := interpreter -> result unit * interpreter.

Definition store (h : ref -> list filter_entry) (r : ref)
    (l : list filter_entry) : ref -> list filter_entry :=
  fun r' => if Nat.eqb r' r then l else h r'.

(** The list [warnings.filters] currently names. *)
Definition current_filters (s : interpreter) : list filter_entry :=
  heap s (warnings_filters s).

(** [warnings.filterwarnings(action, category=category)]: the entry is put
    in front of the list object [warnings.filters] names, in place (an
    earlier copy of the entry is removed first). *)
Definition filterwarnings (a : action) (c : category) (s : interpreter)
  : interpreter :=
  let item := (a, c) in
  let filters := warnings_filters s in
  {| heap := store (heap s) filters
                   (item :: remove_first item (heap s filters));
     warnings_filters := filters;
     warnings_showwarning := warnings_showwarning s;
     np_printoptions := np_printoptions s |}.

Definition filter_warnings (state colour_warnings_only : bool)
    (s : interpreter) : result bool * interpreter :=
  (Ok true,
   filterwarnings (if state then ignore else default)
                  (if colour_warnings_only then ColourWarning else Warning)
                  s).

(** [with suppress_warnings(colour_warnings_only): body].  The statements
    before [yield] run on entry; the [finally] clause runs when the body
    ends, normally or by an exception, which then goes on to the caller. *)
Definition suppress_warnings (colour_warnings_only : bool) (body : block)
  : block :=
  fun s =>
    let filters := warnings_filters s in
    let show_warnings := warnings_showwarning s in
    let s1 := snd (filter_warnings true colour_warnings_only s) in
    let '(r, s2) := body s1 in
    (r, {| heap := heap s2;
           warnings_filters := filters;
           warnings_showwarning := show_warnings;
           np_printoptions := np_printoptions s2 |}).

Definition call_set_printoptions (k : kwargs) (s : interpreter)
  : result unit * interpreter :=
  let '(r, o) := set_printoptions k (np_printoptions s) in
  (r, {| heap := heap s;
         warnings_filters := warnings_filters s;
         warnings_showwarning := warnings_showwarning s;
         np_printoptions := o |}).

(** [with numpy_print_options(...): body], [k] being the keyword
    arguments of the call. *)
Definition numpy_print_options (k : kwargs) (body : block) : block :=
  fun s =>
    let options := get_printoptions (np_printoptions s) in
    match call_set_printoptions k s with
    | (Raise e, s1) => (Raise e, s1)
    | (Ok _, s1) =>
        let '(r, s2) := body s1 in
        match call_set_printoptions options s2 with
        | (Raise e, s3) => (Raise e, s3)
        | (Ok _, s3) => (r, s3)
        end
    end.

(** [pass]. *)
Definition pass : block := fun s => (Ok tt, s).

End ContextManagers.

Arguments mkInterpreter {printoptions} _ _ _ _.
Arguments heap {printoptions} _ _.
Arguments warnings_filters {printoptions} _.
Arguments warnings_showwarning {printoptions} _.
Arguments np_printoptions {printoptions} _.
Arguments current_filters {printoptions} _.
Arguments filterwarnings {printoptions} _ _ _.
Arguments filter_warnings {printoptions} _ _ _.
Arguments suppress_warnings {printoptions} _ _ _.
Arguments call_set_printoptions {printoptions kwargs} _ _ _.
Arguments numpy_print_options {printoptions kwargs} _ _ _ _ _.
Arguments pass {printoptions} _.

(** An interpreter in which no warning filter is installed. *)
Definition fresh_interpreter : interpreter unit :=
  {| heap := fun _ => [];
     warnings_filters := 0%nat;
     warnings_showwarning := 0%nat;
     np_printoptions := tt |}.

(** A string without tab characters. *)
Fixpoint tab_free (s : string) : bool :=
  match s with
  | EmptyString => true
  | String c rest => negb (Ascii.eqb c tab) && tab_free rest
  end.

(** What is asked of the line-filling step: it builds its lines from the
    characters of the text, so a text without tabs gives lines without
    tabs. *)
Definition tab_free_wrapper (wrap_chunks : Z -> string -> list string)
  : Prop :=
  forall width text line,
    tab_free text = true -> In line (wrap_chunks width text) ->
    tab_free line = true.

(** Setting every option from a snapshot of the options gives the snapshot
    back, whatever the options were in between. *)
Definition snapshot_restores {printoptions kwargs : Type}
    (get_printoptions : printoptions -> kwargs)
    (set_printoptions :
       kwargs -> printoptions -> result unit * printoptions) : Prop :=
  forall o o', set_printoptions (get_printoptions o) o' = (Ok tt, o).

(** ** Sample instances of the parameters

    Concrete values for the parameters above, on which the statements below
    are exercised. *)

(** The D65 chromaticity coordinates and the Rec. 2020 to XYZ matrix in the
    rounding of ITU-R BT.2020. *)
Definition D65_sample : R * R := (0.3127, 0.3290).

Definition normalised_primary_matrix_sample
    (primaries : list (R * R)) (whitepoint : R * R) : mat3 :=
  ((0.6370, 0.1446, 0.1689),
   (0.2627, 0.6780, 0.0593),
   (0, 0.0281, 1.0610)).

Definition globals_sample : Globals :=
  let to_XYZ :=
    normalised_primary_matrix_sample REC_2020_PRIMARIES_value D65_sample in
  {| M_XYZ_TO_RGB_OSA_UCS := M_XYZ_TO_RGB_OSA_UCS_value;
     REC_2020_PRIMARIES := REC_2020_PRIMARIES_value;
     REC_2020_WHITEPOINT := D65_sample;
     REC_2020_TO_XYZ_MATRIX := to_XYZ;
     XYZ_TO_REC_2020_MATRIX :=
       match linalg_inv to_XYZ with Ok m => m | Raise _ => identity3 end;
     REC_2020_CONSTANTS := REC_2020_CONSTANTS_value |}.

(** The chromaticity projection [x = X / (X + Y + Z)], [y = Y / (X + Y + Z)]
    with the luminance [Y] kept. *)
Definition XYZ_to_xyY_sample (XYZ : list npfloat) : Py (list npfloat) :=
  match XYZ with
  | [X; Y; Z] =>
      let s := X [+] Y [+] Z in
      ret [X [/] s; Y [/] s; Y]
  | _ => raise ValueError
  end.

(** An optimiser that evaluates [func] at the starting point and returns the
    starting point. *)
Definition fmin_sample (func : list npfloat -> Py npfloat)
    (x0 : list npfloat) (settings : dict) : Py (list npfloat) :=
  _ <- func x0 ;;
  ret x0.

(** A wrapper that never breaks a line. *)
Definition wrap_chunks_sample (width : Z) (text : string) : list string :=
  match text with
  | EmptyString => []
  | _ => [text]
  end.

(** Print options reduced to the precision. *)
Definition printoptions_sample : Type := Z.
Definition kwargs_sample : Type := option Z.
Definition get_printoptions_sample (o : printoptions_sample)
  : kwargs_sample := Some o.
Definition set_printoptions_sample (k : kwargs_sample)
    (o : printoptions_sample) : result unit * printoptions_sample :=
  (Ok tt, match k with Some precision => precision | None => o end).

(** ** Specification vocabulary *)

(** A computation that leaves every module attribute as it found it. *)
Definition keeps_globals {A : Type} (m : Py A) : Prop :=
  forall g, after m g = g.

(** A computation that returns, whatever the module state. *)
Definition always_returns {A : Type} (m : Py A) : Prop :=
  forall g, exists a, returned m g = Ok a.

(** The module state right after [rec_2020.py] was loaded holds the
    constants of the transfer functions. *)
Definition rec_2020_loaded (g : Globals) : Prop :=
  REC_2020_CONSTANTS g = REC_2020_CONSTANTS_value.

(** The inputs the conversion functions are written for: a tristimulus
    value is a one-dimensional array of three components, an array of
    [Ljg] triplets is a well-formed array whose number of elements is a
    multiple of 3, the transfer function takes any float, the inverse
    transfer function a float up to [float_pow_range] (for larger ones the
    power of the decoding leaves the range of doubles, where Python raises
    OverflowError).  The optimisation parameters of [OSA_UCS_to_XYZ] are no
    numeric input: [fmin_suits] below is about them. *)
Definition valid_input (c : conversion_call) : Prop :=
  match c with
  | Call_XYZ_to_OSA_UCS XYZ => length XYZ = 3%nat
  | Call_OSA_UCS_to_XYZ Ljg _ =>
      well_formed Ljg /\ (length (data Ljg) mod 3 = 0)%nat
  | Call_REC_2020_TRANSFER_FUNCTION _ _ => True
  | Call_REC_2020_INVERSE_TRANSFER_FUNCTION value _ =>
      value <= float_pow_range
  end.

(** The calls that C7 is about: [XYZ_to_OSA_UCS] and the two transfer
    functions. *)
Definition closed_form (c : conversion_call) : Prop :=
  match c with
  | Call_OSA_UCS_to_XYZ _ _ => False
  | _ => True
  end.

Section Programs.

Variable XYZ_to_xyY : list npfloat -> Py (list npfloat).
Variable fmin :
  (list npfloat -> Py npfloat) -> list npfloat -> dict -> Py (list npfloat).

(** What the statements below ask of the two parameters.  [XYZ_to_xyY] maps
    three components to three components... *)
Definition xyY_returns : Prop :=
  forall XYZ g, length XYZ = 3%nat ->
    exists x y Y, returned (XYZ_to_xyY XYZ) g = Ok [x; y; Y].

(** ... and rebinds no module attribute. *)
Definition xyY_frame : Prop := forall XYZ, keeps_globals (XYZ_to_xyY XYZ).

(** Under the keyword arguments [settings], [fmin] returns the minimiser
    alone, a point of the dimension of its starting point, provided the
    objective function returns on every such point.  This depends on the
    settings: [scipy.optimize.fmin] returns a tuple around the minimiser
    under [full_output] or [retall], and raises TypeError for a keyword it
    does not know; it does return the minimiser alone under the default
    [{'disp': False}] of [OSA_UCS_to_XYZ]. *)
Definition fmin_returns (settings : dict) : Prop :=
  forall func x0 g,
    (forall x g', length x = length x0 ->
                  exists v, returned (func x) g' = Ok v) ->
    exists xopt,
      returned (fmin func x0 settings) g = Ok xopt
      /\ length xopt = length x0.

(** The optimisation parameters of a call suit [fmin] when [fmin] returns
    the minimiser alone under the settings the call builds from them; only
    [OSA_UCS_to_XYZ] takes such parameters. *)
Definition fmin_suits (c : conversion_call) : Prop :=
  match c with
  | Call_OSA_UCS_to_XYZ _ optimisation_parameters =>
      fmin_returns (optimisation_settings optimisation_parameters)
  | _ => True
  end.

(** [fmin] rebinds no module attribute unless the objective function
    does. *)
Definition fmin_frame : Prop :=
  forall func x0 settings,
    (forall x, keeps_globals (func x)) ->
    keeps_globals (fmin func x0 settings).

(** A program that makes the calls [cs] one after the other, going on after
    a call that raised (as a caller that catches the exception does). *)
Fixpoint run_all (cs : list conversion_call) : Py unit :=
  match cs with
  | [] => ret tt
  | c :: rest =>
      fun g => run_all rest (after (run XYZ_to_xyY fmin c) g)
  end.

End Programs.

(** ** Vocabulary of the further properties *)


(** [Y_0] of [XYZ_to_OSA_UCS], on numbers. *)
Definition OSA_Y_0 (x y Y : R) : R :=
  Y * (4.4934 * (x * x) + 4.3034 * (y * y) - 4.276 * x * y - 1.3744 * x
       - 2.5643 * y + 1.8103).

(** [dot_vector(M_XYZ_TO_RGB_OSA_UCS, XYZ)], on numbers. *)
Definition OSA_RGB (X Y Z : R) : R * R * R :=
  (0.799 * X + 0.4194 * Y + -0.1648 * Z,
   -0.4493 * X + 1.3265 * Y + 0.0927 * Z,
   -0.1149 * X + 0.3394 * Y + 0.717 * Z).

(** [d.get(k)]. *)
Fixpoint dict_get (k : string) (d : dict) : option py_value :=
  match d with
  | [] => None
  | (k', v) :: d' => if String.eqb k k' then Some v else dict_get k d'
  end.

(** An optimiser that heeds [full_output] as [scipy.optimize.fmin] does: it
    evaluates [func] at the starting point and returns the starting point,
    and with [full_output=True] what it returns is the tuple
    [(xopt, fopt, iter, funcalls, warnflag)], here its items one after the
    other. *)
Definition fmin_full_output_sample (func : list npfloat -> Py npfloat)
    (x0 : list npfloat) (settings : dict) : Py (list npfloat) :=
  fopt <- func x0 ;;
  match dict_get "full_output"%string settings with
  | Some (PyBool true) => ret (x0 ++ [fopt; #0; #1; #0])
  | _ => ret x0
  end.

(** The category of a warning that is being issued: a [ColourWarning], or
    another subclass of [Warning] (a [UserWarning], a [RuntimeWarning],
    ...). *)
Inductive issued : Type :=
| issued_ColourWarning
| issued_other.

(** [issubclass(w, c)] for an issued warning and the category of a filter
    entry. *)
Definition issubclass (w : issued) (c : category) : bool :=
  match w, c with
  | _, Warning => true
  | issued_ColourWarning, ColourWarning => true
  | issued_other, ColourWarning => false
  end.

(** The action [warnings.warn] takes for an issued warning: that of the
    first entry of the filters whose category the warning belongs to (the
    entries of this module match every message, module and line), and
    [default] when there is none. *)
Fixpoint action_for (w : issued) (filters : list filter_entry) : action :=
  match filters with
  | [] => default
  | (a, c) :: rest => if issubclass w c then a else action_for w rest
  end.

(** * Theorems *)

(** ** The state monad *)

Lemma after_bind {A B : Type} (m : Py A) (k : A -> Py B) :
  keeps_globals m -> (forall a, keeps_globals (k a)) ->
  keeps_globals (bind m k).
Proof.
  intros Hm Hk g. unfold after, bind.
  specialize (Hm g). unfold after in Hm.
  destruct (m g) as [[a | e] g']; simpl in *; subst g'.
  - apply Hk.
  - reflexivity.
Qed.

Lemma keeps_ret {A : Type} (a : A) : keeps_globals (ret a).
Proof. intro g. reflexivity. Qed.

Lemma keeps_raise {A : Type} (e : exn) : keeps_globals (@raise A e).
Proof. intro g. reflexivity. Qed.

Lemma keeps_read {A : Type} (attr : Globals -> A) : keeps_globals (read attr).
Proof. intro g. reflexivity. Qed.

Lemma returned_bind_keeps {A B : Type} (m : Py A) (k : A -> Py B) g a :
  keeps_globals m -> returned m g = Ok a ->
  returned (bind m k) g = returned (k a) g.
Proof.
  intros Hm Ha. unfold returned, bind in *.
  specialize (Hm g). unfold after in Hm.
  destruct (m g) as [r g']; simpl in *; subst. reflexivity.
Qed.

Lemma returned_bind {A B : Type} (m : Py A) (k : A -> Py B) g a :
  returned m g = Ok a ->
  returned (bind m k) g = returned (k a) (after m g).
Proof.
  intros Ha. unfold returned, after, bind in *.
  destruct (m g) as [r g']; simpl in *; subst. reflexivity.
Qed.

Create HintDb frame.
#[local] Hint Resolve after_bind keeps_ret keeps_raise keeps_read : frame.

(** ** Powers with the exponents 0.45 and 1 / 0.45 *)

Lemma Rpower_ratio_pow (a : R) (p q : nat) :
  0 < a -> (0 < q)%nat -> Rpower a (INR p / INR q) ^ q = a ^ p.
Proof.
  intros Ha Hq.
  rewrite <- Rpower_pow by apply exp_pos.
  rewrite Rpower_mult.
  replace (INR p / INR q * INR q) with (INR p).
  - now apply Rpower_pow.
  - field. apply not_0_INR. lia.
Qed.

Lemma Rpower_ratio_above (a c : R) (p q : nat) :
  0 < a -> (0 < q)%nat -> 0 <= c -> c ^ q < a ^ p ->
  c < Rpower a (INR p / INR q).
Proof.
  intros Ha Hq Hc Hlt.
  destruct (Rlt_le_dec c (Rpower a (INR p / INR q))) as [H | H]; [exact H | ].
  exfalso.
  assert (Hy : 0 <= Rpower a (INR p / INR q)) by (left; apply exp_pos).
  pose proof (pow_incr _ _ q (conj Hy H)) as Hpow.
  rewrite Rpower_ratio_pow in Hpow by assumption. lra.
Qed.

Lemma Rpower_ratio_below (a c : R) (p q : nat) :
  0 < a -> (0 < q)%nat -> 0 <= c -> a ^ p < c ^ q ->
  Rpower a (INR p / INR q) < c.
Proof.
  intros Ha Hq Hc Hlt.
  destruct (Rlt_le_dec (Rpower a (INR p / INR q)) c) as [H | H]; [exact H | ].
  exfalso.
  pose proof (pow_incr _ _ q (conj Hc H)) as Hpow.
  rewrite Rpower_ratio_pow in Hpow by assumption. lra.
Qed.

Lemma exponent_045 : 0.45 = INR 9 / INR 20.
Proof. simpl. lra. Qed.

Lemma exponent_inv_045 : 1 / 0.45 = INR 20 / INR 9.
Proof. simpl. lra. Qed.

(** [x ** y] returns the real power on a positive base. *)
Lemma float_pow_positive (x y : R) g :
  0 < x -> float_pow x y g = (Ok (Rpower x y), g).
Proof.
  intro Hx. unfold float_pow.
  destruct (Rlt_dec x 0); [lra | ].
  destruct (Req_dec_T x 0); [lra | reflexivity].
Qed.

Lemma keeps_float_pow (x y : R) : keeps_globals (float_pow x y).
Proof.
  unfold float_pow.
  destruct (Rlt_dec x 0); [ | destruct (Req_dec_T x 0)]; auto with frame.
Qed.

(** ** The Rec. 2020 transfer functions, branch by branch *)

Abbreviation alpha_ := (alpha REC_2020_CONSTANTS_value).
Abbreviation beta_ := (beta REC_2020_CONSTANTS_value).

Lemma constants_range (b : bool) :
  1 < alpha_ b < 1.1 /\ 0.018 <= beta_ b <= 0.0181.
Proof. destruct b; simpl; lra. Qed.

Lemma transfer_linear g value b :
  rec_2020_loaded g -> value < beta_ b ->
  _rec_2020_transfer_function value b g = (Ok (value * 4.5), g).
Proof.
  intros Hg Hv. unfold _rec_2020_transfer_function, bind, read.
  rewrite Hg. destruct (Rlt_dec value (beta_ b)); [reflexivity | lra].
Qed.

Lemma transfer_power g value b :
  rec_2020_loaded g -> beta_ b <= value ->
  _rec_2020_transfer_function value b g
  = (Ok (alpha_ b * Rpower value 0.45 - (alpha_ b - 1)), g).
Proof.
  intros Hg Hv. unfold _rec_2020_transfer_function, bind, read.
  rewrite Hg. destruct (Rlt_dec value (beta_ b)); [lra | ].
  pose proof (constants_range b).
  rewrite float_pow_positive by lra. reflexivity.
Qed.

Lemma inverse_linear g value b :
  rec_2020_loaded g -> value < beta_ b ->
  _rec_2020_inverse_transfer_function value b g = (Ok (value / 4.5), g).
Proof.
  intros Hg Hv. unfold _rec_2020_inverse_transfer_function, bind, read.
  rewrite Hg. destruct (Rlt_dec value (beta_ b)); [reflexivity | lra].
Qed.

Lemma inverse_power g value b :
  rec_2020_loaded g -> beta_ b <= value ->
  _rec_2020_inverse_transfer_function value b g
  = (Ok (Rpower ((value + (alpha_ b - 1)) / alpha_ b) (1 / 0.45)), g).
Proof.
  intros Hg Hv. unfold _rec_2020_inverse_transfer_function, bind, read.
  rewrite Hg. destruct (Rlt_dec value (beta_ b)); [lra | ].
  pose proof (constants_range b) as [[Ha1 Ha2] [Hb1 Hb2]].
  apply float_pow_positive.
  apply Rdiv_lt_0_compat; lra.
Qed.

(** Up to [float_pow_range] the power of the decoding stays below the
    largest double. *)
Lemma inverse_power_in_range (b : bool) (value : R) :
  beta_ b <= value <= float_pow_range ->
  Rpower ((value + (alpha_ b - 1)) / alpha_ b) (1 / 0.45) < float_max.
Proof.
  intros [Hlo Hhi].
  pose proof (constants_range b) as [[Ha1 Ha2] [Hb1 Hb2]].
  assert (Hone : 1 <= float_pow_range).
  { unfold float_pow_range. apply pow_R1_Rle. lra. }
  assert (Hbase : 0 < (value + (alpha_ b - 1)) / alpha_ b <= float_pow_range).
  { split.
    - apply Rdiv_lt_0_compat; lra.
    - apply Rmult_le_reg_r with (alpha_ b); [lra | ].
      unfold Rdiv. rewrite Rmult_assoc, Rinv_l, Rmult_1_r by lra. nra. }
  apply Rle_lt_trans with (Rpower float_pow_range (1 / 0.45)).
  - apply Rle_Rpower_l; lra.
  - rewrite exponent_inv_045.
    apply Rpower_ratio_below; [lra | lia | | ].
    + unfold float_max. lra.
    + unfold float_pow_range, float_max. lra.
Qed.

(** The power branch of the encoding, at the threshold, lies above the
    threshold: an encoded value of the power branch is decoded by the power
    branch. *)
Lemma power_at_beta_above (b : bool) :
  (beta_ b + (alpha_ b - 1)) / alpha_ b < Rpower (beta_ b) 0.45.
Proof.
  rewrite exponent_045.
  destruct b; simpl alpha; simpl beta;
    (apply Rpower_ratio_above; [lra | lia | lra | lra]).
Qed.

Lemma transfer_power_above_beta (b : bool) (value : R) :
  beta_ b <= value ->
  beta_ b <= alpha_ b * Rpower value 0.45 - (alpha_ b - 1).
Proof.
  intro Hv.
  pose proof (constants_range b) as [[Ha1 Ha2] [Hb1 Hb2]].
  pose proof (power_at_beta_above b) as Hp.
  assert (Hm : Rpower (beta_ b) 0.45 <= Rpower value 0.45)
    by (apply Rle_Rpower_l; lra).
  apply (Rmult_lt_compat_r (alpha_ b)) in Hp; [ | lra].
  unfold Rdiv in Hp. rewrite Rmult_assoc, Rinv_l, Rmult_1_r in Hp by lra.
  nra.
Qed.

(** Where the pair does invert: below [beta / 4.5] and from [beta] on. *)
Lemma round_trip_exact_low g x b :
  rec_2020_loaded g -> x < beta_ b / 4.5 ->
  returned (rec_2020_round_trip x b) g = Ok x.
Proof.
  intros Hg Hx. unfold rec_2020_round_trip, REC_2020_TRANSFER_FUNCTION,
    REC_2020_INVERSE_TRANSFER_FUNCTION, returned, bind.
  pose proof (constants_range b) as [_ [Hb1 Hb2]].
  rewrite transfer_linear by (assumption || lra).
  rewrite inverse_linear by (assumption || lra).
  simpl. f_equal. lra.
Qed.

Lemma round_trip_exact_high g x b :
  rec_2020_loaded g -> beta_ b <= x ->
  returned (rec_2020_round_trip x b) g = Ok x.
Proof.
  intros Hg Hx. unfold rec_2020_round_trip, REC_2020_TRANSFER_FUNCTION,
    REC_2020_INVERSE_TRANSFER_FUNCTION, returned, bind.
  pose proof (constants_range b) as [[Ha1 Ha2] [Hb1 Hb2]].
  rewrite transfer_power by assumption.
  rewrite inverse_power
    by (assumption || now apply transfer_power_above_beta).
  cbn [fst]. f_equal.
  replace ((alpha_ b * Rpower x 0.45 - (alpha_ b - 1) + (alpha_ b - 1))
           / alpha_ b) with (Rpower x 0.45) by (field; lra).
  rewrite Rpower_mult.
  replace (0.45 * (1 / 0.45)) with 1 by lra.
  apply Rpower_1. lra.
Qed.

Lemma globals_sample_loaded : rec_2020_loaded globals_sample.
Proof. reflexivity. Qed.

(** ** C1: the round trip of the Rec. 2020 transfer-function pair *)

(** C1 (the code departs from it): encoding the linear value 0.01 for a
    10-bit system and decoding the result does not give 0.01 back, not even
    approximately: the decoded value is more than 0.0009 above it, an error
    of nine percent.  The encoder takes its linear branch (0.01 is below
    beta = 0.018) and returns 0.045; the decoder compares 0.045 with the same
    beta, although the encoder's breakpoint maps to 4.5 * beta = 0.081, and
    so takes its power branch. *)
Theorem rec_2020_round_trip_misses_0_01 (g : Globals) :
  rec_2020_loaded g ->
  exists y,
    returned (rec_2020_round_trip 0.01 true) g = Ok y /\ 0.0009 < y - 0.01.
Proof.
  intro Hg.
  unfold rec_2020_round_trip, REC_2020_TRANSFER_FUNCTION,
    REC_2020_INVERSE_TRANSFER_FUNCTION, returned, bind.
  rewrite transfer_linear by (assumption || (simpl; lra)).
  rewrite inverse_power by (assumption || (simpl; lra)).
  eexists. split; [reflexivity | ].
  rewrite exponent_inv_045. simpl alpha.
  assert (H : 0.0109 < Rpower ((0.01 * 4.5 + (1.099 - 1)) / 1.099)
                              (INR 20 / INR 9)).
  { apply Rpower_ratio_above; [lra | lia | lra | lra]. }
  lra.
Qed.

Lemma rec_2020_round_trip_misses_0_01_witness :
  exists y,
    returned (rec_2020_round_trip 0.01 true) globals_sample = Ok y
    /\ 0.0009 < y - 0.01.
Proof.
  apply (rec_2020_round_trip_misses_0_01 globals_sample).
  reflexivity.
Defined.

(** The whole interval the defect covers: every linear value from
    [beta / 4.5] up to [beta] is encoded by the linear branch and decoded by
    the power branch. *)
Lemma round_trip_crosses_branches g x b :
  rec_2020_loaded g -> beta_ b / 4.5 <= x < beta_ b ->
  returned (rec_2020_round_trip x b) g
  = Ok (Rpower ((x * 4.5 + (alpha_ b - 1)) / alpha_ b) (1 / 0.45)).
Proof.
  intros Hg [Hlo Hhi]. unfold rec_2020_round_trip, REC_2020_TRANSFER_FUNCTION,
    REC_2020_INVERSE_TRANSFER_FUNCTION, returned, bind.
  rewrite transfer_linear by assumption.
  rewrite inverse_power by (assumption || lra).
  reflexivity.
Qed.

(** ** C2: continuity at the breakpoint *)


(** The decoder's power branch at [beta]. *)
Lemma inverse_power_at_beta_above (b : bool) :
  0.0068 < Rpower ((beta_ b + (alpha_ b - 1)) / alpha_ b) (1 / 0.45).
Proof.
  rewrite exponent_inv_045.
  destruct b; simpl alpha; simpl beta;
    (apply Rpower_ratio_above; [lra | lia | lra | lra]).
Qed.

(** C2 (the code departs from it): the inverse transfer function is not
    continuous where it switches branches.  For either setting of
    [is_10_bits_system], its value at the threshold beta (power branch)
    exceeds its value at every argument below beta (linear branch) by more
    than 0.0025, while the values themselves stay below 0.0041: the two
    branches do not meet at the threshold. *)
Theorem rec_2020_inverse_jumps_at_beta (g : Globals) (b : bool) (value : R) :
  rec_2020_loaded g -> value < beta_ b ->
  exists y0 y,
    returned (_rec_2020_inverse_transfer_function (beta_ b) b) g = Ok y0
    /\ returned (_rec_2020_inverse_transfer_function value b) g = Ok y
    /\ y < 0.0041 /\ 0.0025 < y0 - y.
Proof.
  intros Hg Hv. unfold returned.
  rewrite inverse_power by (assumption || lra).
  rewrite inverse_linear by assumption.
  do 2 eexists. split; [reflexivity | split; [reflexivity | ]].
  pose proof (inverse_power_at_beta_above b).
  pose proof (constants_range b). lra.
Qed.

Lemma rec_2020_inverse_jumps_at_beta_witness :
  exists y0 y,
    returned (_rec_2020_inverse_transfer_function (beta_ true) true)
             globals_sample = Ok y0
    /\ returned (_rec_2020_inverse_transfer_function 0.0179 true)
                globals_sample = Ok y
    /\ y < 0.0041 /\ 0.0025 < y0 - y.
Proof.
  apply (rec_2020_inverse_jumps_at_beta globals_sample true 0.0179).
  - reflexivity.
  - simpl. lra.
Defined.

(** ** C4: the basis-change matrices of Rec. 2020 *)

Ltac destruct_mat3 m :=
  let a := fresh "a" in let b := fresh "b" in let c := fresh "c" in
  let d := fresh "d" in let e := fresh "e" in let f := fresh "f" in
  let g := fresh "g" in let h := fresh "h" in let i := fresh "i" in
  destruct m as [[[[a b] c] [[d e] f]] [[g h] i]].

Lemma linalg_inv_regular (m m' : mat3) :
  linalg_inv m = Ok m' -> det3 m <> 0.
Proof.
  destruct_mat3 m. unfold linalg_inv.
  destruct (Req_dec_T _ 0) as [E | N]; [discriminate | intros _; exact N].
Qed.

Lemma linalg_inv_left (m m' : mat3) :
  linalg_inv m = Ok m' -> dot3 m' m = identity3.
Proof.
  intro H. pose proof (linalg_inv_regular _ _ H) as N. revert H N.
  destruct_mat3 m. unfold linalg_inv.
  destruct (Req_dec_T _ 0) as [E | N']; [discriminate | ].
  intros H N. injection H as <-.
  unfold dot3, identity3. unfold det3 in *.
  repeat (apply f_equal2); field; exact N.
Qed.

Lemma linalg_inv_right (m m' : mat3) :
  linalg_inv m = Ok m' -> dot3 m m' = identity3.
Proof.
  intro H. pose proof (linalg_inv_regular _ _ H) as N. revert H N.
  destruct_mat3 m. unfold linalg_inv.
  destruct (Req_dec_T _ 0) as [E | N']; [discriminate | ].
  intros H N. injection H as <-.
  unfold dot3, identity3. unfold det3 in *.
  repeat (apply f_equal2); field; exact N.
Qed.

(** C4: whenever the module loads, [REC_2020_TO_XYZ_MATRIX] is the matrix
    [normalised_primary_matrix] computed from the primaries and the
    whitepoint, it is invertible (its determinant is not zero), and
    [XYZ_TO_REC_2020_MATRIX] is its inverse: the product of the two, in
    either order, is the 3x3 identity matrix. *)
Theorem rec_2020_matrices_inverse
    (ILLUMINANT_D65 : R * R)
    (normalised_primary_matrix : list (R * R) -> R * R -> mat3)
    (g : Globals) :
  load_modules ILLUMINANT_D65 normalised_primary_matrix = Ok g ->
  REC_2020_TO_XYZ_MATRIX g
  = normalised_primary_matrix (REC_2020_PRIMARIES g) (REC_2020_WHITEPOINT g)
  /\ det3 (REC_2020_TO_XYZ_MATRIX g) <> 0
  /\ dot3 (XYZ_TO_REC_2020_MATRIX g) (REC_2020_TO_XYZ_MATRIX g) = identity3
  /\ dot3 (REC_2020_TO_XYZ_MATRIX g) (XYZ_TO_REC_2020_MATRIX g) = identity3.
Proof.
  unfold load_modules.
  destruct (linalg_inv _) as [inverse | e] eqn:E; [ | discriminate].
  intro H. injection H as <-. cbn [REC_2020_TO_XYZ_MATRIX
    XYZ_TO_REC_2020_MATRIX REC_2020_PRIMARIES REC_2020_WHITEPOINT].
  split; [reflexivity | ].
  split; [exact (linalg_inv_regular _ _ E) | ].
  split; [exact (linalg_inv_left _ _ E) | exact (linalg_inv_right _ _ E)].
Qed.

Lemma sample_matrix_regular :
  det3 (normalised_primary_matrix_sample REC_2020_PRIMARIES_value D65_sample)
  <> 0.
Proof. unfold det3, normalised_primary_matrix_sample. lra. Qed.

Lemma rec_2020_matrices_inverse_witness :
  exists g,
    load_modules D65_sample normalised_primary_matrix_sample = Ok g
    /\ det3 (REC_2020_TO_XYZ_MATRIX g) <> 0
    /\ dot3 (XYZ_TO_REC_2020_MATRIX g) (REC_2020_TO_XYZ_MATRIX g) = identity3.
Proof.
  destruct (load_modules D65_sample normalised_primary_matrix_sample)
    as [g | e] eqn:E.
  - exists g. split; [reflexivity | ].
    pose proof (rec_2020_matrices_inverse
                  D65_sample normalised_primary_matrix_sample g E)
      as [_ [H1 [H2 _]]].
    split; assumption.
  - exfalso. unfold load_modules in E.
    destruct (linalg_inv _) eqn:E'; [discriminate | ].
    unfold linalg_inv, normalised_primary_matrix_sample in E'.
    destruct (Req_dec_T _ 0) as [Z | N]; [ | discriminate].
    apply sample_matrix_regular. exact Z.
Defined.

(** ** Arrays *)

Lemma run_pair {A : Type} (m : Py A) g : m g = (returned m g, after m g).
Proof. unfold returned, after. destruct (m g). reflexivity. Qed.

Lemma list_ind3 {A : Type} (P : list A -> Prop) :
  P [] -> (forall x, P [x]) -> (forall x y, P [x; y]) ->
  (forall x y z l, P l -> P (x :: y :: z :: l)) ->
  forall l, P l.
Proof.
  intros H0 H1 H2 H3.
  fix IH 1.
  intros [ | x [ | y [ | z l]]];
    [exact H0 | apply H1 | apply H2 | apply H3; apply IH].
Qed.

Lemma rows3_triplets (l : list npfloat) :
  Forall (fun r => length r = 3%nat) (rows3 l).
Proof.
  induction l as [ | x | x y | x y z l IH] using list_ind3;
    simpl; auto.
Qed.

Lemma rows3_concat (l : list npfloat) :
  (length l mod 3 = 0)%nat -> concat (rows3 l) = l.
Proof.
  induction l as [ | x | x y | x y z l IH] using list_ind3; intro H.
  - reflexivity.
  - discriminate.
  - discriminate.
  - change (length (x :: y :: z :: l)) with (3 + length l)%nat in H.
    replace (3 + length l)%nat with (length l + 1 * 3)%nat in H by lia.
    rewrite Nat.Div0.mod_add in H.
    simpl. now rewrite IH.
Qed.

Lemma concat_triplets_length (rows : list (list npfloat)) :
  Forall (fun r => length r = 3%nat) rows ->
  length (concat rows) = (3 * length rows)%nat.
Proof.
  induction 1 as [ | r rows Hr _ IH]; simpl; [reflexivity | ].
  rewrite length_app, Hr, IH. lia.
Qed.

Lemma concat_rows_length (n : nat) (rows : list (list npfloat)) :
  Forall (fun r => length r = n) rows ->
  length (concat rows) = (n * length rows)%nat.
Proof.
  induction 1 as [ | r rows Hr _ IH]; simpl; [lia | ].
  rewrite length_app, Hr, IH. lia.
Qed.

Lemma np_array_rows (n : nat) (rows : list (list npfloat)) g :
  Forall (fun r => length r = n) rows ->
  exists s, np_array rows g = (Ok {| shape := s; data := concat rows |}, g).
Proof.
  intro H. unfold np_array. destruct rows as [ | r rows'] eqn:E.
  - eexists. reflexivity.
  - rewrite <- E in *.
    assert (Hall : forallb (fun r' => (length r' =? length r)%nat) rows
                   = true).
    { apply forallb_forall. intros r' Hin.
      rewrite Forall_forall in H.
      apply Nat.eqb_eq. rewrite (H r' Hin).
      symmetry. apply H. rewrite E. now left. }
    rewrite Hall. eexists. reflexivity.
Qed.

Lemma reshape_same_size (a : ndarray) (s : list nat) g :
  size_of s = length (data a) ->
  reshape a s g = (Ok {| shape := s; data := data a |}, g).
Proof.
  intro H. unfold reshape. rewrite (proj2 (Nat.eqb_eq _ _) H). reflexivity.
Qed.

Lemma keeps_np_array rows : keeps_globals (np_array rows).
Proof.
  unfold np_array. destruct rows; [ | destruct (forallb _ _)];
    auto with frame.
Qed.

Lemma keeps_reshape a s : keeps_globals (reshape a s).
Proof. unfold reshape. destruct (_ =? _)%nat; auto with frame. Qed.

Lemma keeps_reshape_rows3 a : keeps_globals (reshape_rows3 a).
Proof. unfold reshape_rows3. destruct (_ =? _)%nat; auto with frame. Qed.

Lemma keeps_tsplit a : keeps_globals (tsplit a).
Proof.
  unfold tsplit. destruct a as [ | x [ | y [ | z [ | w a]]]];
    auto with frame.
Qed.

Lemma keeps_dot_vector m v : keeps_globals (dot_vector m v).
Proof.
  destruct_mat3 m. unfold dot_vector.
  destruct v as [ | x [ | y [ | z [ | w v]]]]; auto with frame.
Qed.

Lemma keeps_np_dot a b : keeps_globals (np_dot a b).
Proof.
  revert b. induction a as [ | x a IH]; intros [ | y b]; simpl;
    auto with frame.
Qed.

Lemma keeps_np_subtract a b : keeps_globals (np_subtract a b).
Proof.
  revert b. induction a as [ | x a IH]; intros [ | y b]; simpl;
    auto with frame.
Qed.

#[local] Hint Resolve keeps_np_array keeps_reshape keeps_reshape_rows3
  keeps_tsplit keeps_dot_vector keeps_np_dot keeps_np_subtract
  keeps_float_pow : frame.

Lemma np_subtract_returns (a b : list npfloat) :
  length a = length b -> always_returns (np_subtract a b).
Proof.
  revert b. induction a as [ | x a IH]; intros [ | y b] H g;
    try discriminate.
  - eexists. reflexivity.
  - injection H as H. destruct (IH b H g) as [s Hs].
    simpl. rewrite (returned_bind_keeps _ _ _ _ (keeps_np_subtract a b) Hs).
    eexists. reflexivity.
Qed.

Lemma keeps_comprehension {A B : Type} (f : A -> Py B) (xs : list A) :
  (forall x, keeps_globals (f x)) -> keeps_globals (comprehension f xs).
Proof. intro Hf. induction xs; simpl; auto with frame. Qed.

Lemma comprehension_returns {A B : Type} (f : A -> Py B)
    (P : A -> Prop) (Q : B -> Prop) (xs : list A) :
  (forall x g, P x -> exists y, returned (f x) g = Ok y /\ Q y) ->
  Forall P xs ->
  forall g, exists ys,
    returned (comprehension f xs) g = Ok ys
    /\ Forall Q ys /\ length ys = length xs.
Proof.
  intros Hf. induction 1 as [ | x xs Hx _ IH]; intro g.
  - exists []. repeat split. constructor.
  - destruct (Hf x g Hx) as (y & Hy & HQ).
    destruct (IH (after (f x) g)) as (ys & Hys & HQs & Hlen).
    exists (y :: ys). cbn [comprehension].
    rewrite (returned_bind _ _ _ _ Hy).
    rewrite (returned_bind _ _ _ _ Hys).
    repeat split; [now constructor | simpl; now rewrite Hlen].
Qed.

Lemma comprehension_pointwise {A B : Type} (f : A -> Py B)
    (xs : list A) (ys : list B) g :
  (forall x, keeps_globals (f x)) ->
  returned (comprehension f xs) g = Ok ys ->
  Forall2 (fun x y => returned (f x) g = Ok y) xs ys.
Proof.
  intro Hf. revert ys. induction xs as [ | x xs IH]; intros ys H.
  - injection H as <-. constructor.
  - cbn [comprehension] in H. unfold returned, bind in H.
    rewrite (run_pair (f x) g), (Hf x g) in H.
    destruct (returned (f x) g) as [y | e] eqn:Ey; [ | discriminate].
    rewrite (run_pair (comprehension f xs) g) in H.
    rewrite (keeps_comprehension f xs Hf g) in H.
    destruct (returned (comprehension f xs) g) as [ys' | e] eqn:Eys;
      [ | discriminate].
    injection H as <-. constructor; [exact Ey | now apply IH].
Qed.

(** ** osa_ucs.py: what the conversions return and what they leave *)

Section OsaUcsFacts.

Variable XYZ_to_xyY : list npfloat -> Py (list npfloat).
Variable fmin :
  (list npfloat -> Py npfloat) -> list npfloat -> dict -> Py (list npfloat).

#[local] Abbreviation xyY_returns := (xyY_returns XYZ_to_xyY).
#[local] Abbreviation xyY_frame := (xyY_frame XYZ_to_xyY).
#[local] Abbreviation fmin_returns := (fmin_returns fmin).
#[local] Abbreviation fmin_frame := (fmin_frame fmin).

Lemma keeps_XYZ_to_OSA_UCS XYZ :
  xyY_frame -> keeps_globals (XYZ_to_OSA_UCS XYZ_to_xyY XYZ).
Proof.
  intro H. unfold XYZ_to_OSA_UCS.
  apply after_bind; [apply H | intro xyY].
  apply after_bind; [apply keeps_tsplit | intros [[x y] Y]].
  auto 10 with frame.
Qed.

Lemma keeps_function_error XYZ Ljg :
  xyY_frame -> keeps_globals (function_error XYZ_to_xyY XYZ Ljg).
Proof.
  intro H. unfold function_error.
  apply after_bind; [now apply keeps_XYZ_to_OSA_UCS | ].
  auto with frame.
Qed.

Lemma XYZ_to_OSA_UCS_returns XYZ g :
  xyY_returns -> length XYZ = 3%nat ->
  exists L j g_,
    returned (XYZ_to_OSA_UCS XYZ_to_xyY XYZ) g = Ok [L; j; g_].
Proof.
  intros H Hlen.
  destruct XYZ as [ | X [ | Y [ | Z [ | W XYZ]]]]; try discriminate.
  destruct (H [X; Y; Z] g eq_refl) as (x & y & Y' & Hxy).
  unfold XYZ_to_OSA_UCS.
  rewrite (returned_bind _ _ _ _ Hxy).
  set (g1 := after _ g).
  unfold returned, bind, tsplit, ret, read, dot_vector.
  destruct (M_XYZ_TO_RGB_OSA_UCS g1) as [[[[a b] c] [[d e] f]] [[k h] i]].
  cbn [map np_dot bind ret fst]. unfold bind, ret. cbn [fst tstack].
  do 3 eexists. reflexivity.
Qed.

Lemma function_error_returns XYZ Ljg g :
  xyY_returns -> length XYZ = 3%nat -> length Ljg = 3%nat ->
  exists v, returned (function_error XYZ_to_xyY XYZ Ljg) g = Ok v.
Proof.
  intros H HX HL. unfold function_error.
  destruct (XYZ_to_OSA_UCS_returns XYZ g H HX) as (L & j & g_ & Hr).
  rewrite (returned_bind _ _ _ _ Hr).
  destruct (np_subtract_returns [L; j; g_] Ljg (eq_sym HL)
              (after (XYZ_to_OSA_UCS XYZ_to_xyY XYZ) g)) as [d Hd].
  rewrite (returned_bind _ _ _ _ Hd).
  eexists. reflexivity.
Qed.

(** The shape of what [OSA_UCS_to_XYZ] returns: shared by C5 and C8. *)
Lemma OSA_UCS_to_XYZ_shape Ljg parameters g :
  xyY_returns -> fmin_returns (optimisation_settings parameters) ->
  well_formed Ljg -> (length (data Ljg) mod 3 = 0)%nat ->
  exists XYZ_rows,
    returned (comprehension
                (fun Ljg_i =>
                   fmin (fun XYZ => function_error XYZ_to_xyY XYZ Ljg_i)
                        x_0 (optimisation_settings parameters))
                (rows3 (data Ljg))) g = Ok XYZ_rows
    /\ Forall (fun r => length r = 3%nat) XYZ_rows
    /\ length XYZ_rows = length (rows3 (data Ljg))
    /\ returned (OSA_UCS_to_XYZ XYZ_to_xyY fmin Ljg parameters) g
       = Ok {| shape := shape Ljg; data := concat XYZ_rows |}.
Proof.
  intros Hxy Hfmin Hwf Hmod.
  set (f := fun Ljg_i =>
              fmin (fun XYZ => function_error XYZ_to_xyY XYZ Ljg_i)
                   x_0 (optimisation_settings parameters)).
  assert (Hf : forall row g', length row = 3%nat ->
             exists xopt, returned (f row) g' = Ok xopt
                          /\ length xopt = 3%nat).
  { intros row g' Hrow. unfold f.
    apply (Hfmin _ x_0 g').
    intros x g'' Hx. now apply function_error_returns. }
  destruct (comprehension_returns f
              (fun r => length r = 3%nat) (fun r => length r = 3%nat)
              (rows3 (data Ljg)) Hf (rows3_triplets _) g)
    as (XYZ_rows & Hrows & Hall & Hlen).
  exists XYZ_rows. repeat split; try assumption.
  unfold OSA_UCS_to_XYZ, reshape_rows3.
  rewrite (proj2 (Nat.eqb_eq _ _) Hmod).
  unfold returned at 1. unfold bind at 1. unfold ret at 1.
  fold f. unfold bind at 1.
  rewrite (run_pair (comprehension f _) g), Hrows.
  set (g1 := after _ g).
  destruct (np_array_rows 3 XYZ_rows g1 Hall) as [s Hs].
  unfold bind. rewrite Hs.
  rewrite reshape_same_size; [reflexivity | ].
  cbn [data]. rewrite concat_triplets_length by assumption.
  rewrite Hlen, <- Hwf.
  rewrite <- (rows3_concat _ Hmod) at 1.
  apply concat_triplets_length, rows3_triplets.
Qed.

Lemma keeps_OSA_UCS_to_XYZ Ljg parameters :
  xyY_frame -> fmin_frame ->
  keeps_globals (OSA_UCS_to_XYZ XYZ_to_xyY fmin Ljg parameters).
Proof.
  intros Hxy Hfmin. unfold OSA_UCS_to_XYZ.
  apply after_bind; [apply keeps_reshape_rows3 | intro rows].
  apply after_bind; [ | auto with frame].
  apply keeps_comprehension. intro row.
  apply Hfmin. intro XYZ. now apply keeps_function_error.
Qed.

Lemma keeps_transfer value b :
  keeps_globals (_rec_2020_transfer_function value b).
Proof.
  unfold _rec_2020_transfer_function.
  apply after_bind; [apply keeps_read | intro c].
  destruct (Rlt_dec _ _); auto with frame.
Qed.

Lemma keeps_inverse value b :
  keeps_globals (_rec_2020_inverse_transfer_function value b).
Proof.
  unfold _rec_2020_inverse_transfer_function.
  apply after_bind; [apply keeps_read | intro c].
  destruct (Rlt_dec _ _); auto with frame.
Qed.

Lemma keeps_run c :
  xyY_frame -> (closed_form c \/ fmin_frame) ->
  keeps_globals (run XYZ_to_xyY fmin c).
Proof.
  intros Hxy Hc.
  destruct c as [XYZ | Ljg parameters | value b | value b]; unfold run;
    (apply after_bind; [ | auto with frame]).
  - now apply keeps_XYZ_to_OSA_UCS.
  - destruct Hc as [[] | Hfmin]. now apply keeps_OSA_UCS_to_XYZ.
  - apply keeps_transfer.
  - apply keeps_inverse.
Qed.

End OsaUcsFacts.

(** ** The sample parameters meet what is asked of them *)

Lemma sample_xyY_returns : xyY_returns XYZ_to_xyY_sample.
Proof.
  intros XYZ g H.
  destruct XYZ as [ | X [ | Y [ | Z [ | W XYZ]]]]; try discriminate.
  do 3 eexists. reflexivity.
Qed.

Lemma sample_xyY_frame : xyY_frame XYZ_to_xyY_sample.
Proof.
  intros XYZ. unfold XYZ_to_xyY_sample.
  destruct XYZ as [ | X [ | Y [ | Z [ | W XYZ]]]]; auto with frame.
Qed.

Lemma sample_fmin_returns settings : fmin_returns fmin_sample settings.
Proof.
  intros func x0 g H. unfold fmin_sample.
  destruct (H x0 g eq_refl) as [v Hv].
  exists x0. rewrite (returned_bind _ _ _ _ Hv). split; reflexivity.
Qed.

Lemma sample_fmin_frame : fmin_frame fmin_sample.
Proof.
  intros func x0 settings H. unfold fmin_sample. auto with frame.
Qed.

Lemma sample_full_output_returns settings :
  dict_get "full_output" settings <> Some (PyBool true) ->
  fmin_returns fmin_full_output_sample settings.
Proof.
  intros Hplain func x0 g H. unfold fmin_full_output_sample.
  destruct (H x0 g eq_refl) as [v Hv].
  exists x0. rewrite (returned_bind _ _ _ _ Hv).
  split; [ | reflexivity].
  destruct (dict_get "full_output" settings) as [[[ | ] | z | r] | ];
    try reflexivity.
  now contradiction Hplain.
Qed.

Lemma sample_full_output_frame : fmin_frame fmin_full_output_sample.
Proof.
  intros func x0 settings H. unfold fmin_full_output_sample.
  apply after_bind; [apply H | intro fopt].
  destruct (dict_get "full_output" settings) as [[[ | ] | z | r] | ];
    auto with frame.
Qed.

(** With [full_output=True] among its settings, [OSA_UCS_to_XYZ] raises on
    every array of triplets that is not empty: each row of the comprehension
    is the seven items of the tuple, and the [n] rows of seven do not
    reshape to the [3 * n] elements of the input's shape.  Shared by the
    failing calls of C5 and C8. *)
Lemma OSA_UCS_to_XYZ_full_output XYZ_to_xyY Ljg parameters g :
  xyY_returns XYZ_to_xyY ->
  well_formed Ljg -> (length (data Ljg) mod 3 = 0)%nat -> data Ljg <> [] ->
  dict_get "full_output" (optimisation_settings parameters)
  = Some (PyBool true) ->
  returned (OSA_UCS_to_XYZ XYZ_to_xyY fmin_full_output_sample Ljg parameters)
           g
  = Raise ValueError.
Proof.
  intros Hxy Hwf Hmod Hne Hfull.
  set (f := fun Ljg_i =>
              fmin_full_output_sample
                (fun XYZ => function_error XYZ_to_xyY XYZ Ljg_i)
                x_0 (optimisation_settings parameters)).
  assert (Hf : forall row g', length row = 3%nat ->
             exists out, returned (f row) g' = Ok out
                         /\ length out = 7%nat).
  { intros row g' Hrow. unfold f, fmin_full_output_sample.
    destruct (function_error_returns XYZ_to_xyY x_0 row g' Hxy eq_refl Hrow)
      as [v Hv].
    rewrite (returned_bind _ _ _ _ Hv), Hfull.
    eexists. split; reflexivity. }
  destruct (comprehension_returns f
              (fun r => length r = 3%nat) (fun r => length r = 7%nat)
              (rows3 (data Ljg)) Hf (rows3_triplets _) g)
    as (rows & Hrows & Hall & Hlen).
  unfold OSA_UCS_to_XYZ, reshape_rows3.
  rewrite (proj2 (Nat.eqb_eq _ _) Hmod).
  unfold returned at 1. unfold bind at 1. unfold ret at 1.
  fold f. unfold bind at 1.
  rewrite (run_pair (comprehension f _) g), Hrows.
  set (g1 := after _ g).
  destruct (np_array_rows 7 rows g1 Hall) as [s Hs].
  unfold bind. rewrite Hs.
  unfold reshape. cbn [data].
  assert (Hsize : (size_of (shape Ljg) =? length (concat rows))%nat = false).
  { apply Nat.eqb_neq.
    rewrite (concat_rows_length 7 rows Hall), Hlen, <- Hwf.
    rewrite <- (rows3_concat _ Hmod) at 1.
    rewrite (concat_rows_length 3 _ (rows3_triplets _)).
    assert (Hrow : rows3 (data Ljg) <> []).
    { intro E. apply Hne. rewrite <- (rows3_concat _ Hmod), E. reflexivity. }
    destruct (rows3 (data Ljg)); [congruence | simpl; lia]. }
  rewrite Hsize. reflexivity.
Qed.

Lemma valid_input_dec (c : conversion_call) : valid_input c \/ ~ valid_input c.
Proof.
  destruct c as [XYZ | Ljg parameters | value b | value b];
    cbn [valid_input].
  - destruct (Nat.eq_dec (length XYZ) 3); [now left | now right].
  - unfold well_formed.
    destruct (Nat.eq_dec (length (data Ljg)) (size_of (shape Ljg)));
      destruct (Nat.eq_dec (length (data Ljg) mod 3) 0); tauto.
  - now left.
  - destruct (Rle_dec value float_pow_range); [now left | now right].
Qed.

Lemma Forall2_and_right {A B : Type} (R : A -> B -> Prop) (Q : B -> Prop)
    (xs : list A) (ys : list B) :
  Forall2 R xs ys -> Forall Q ys ->
  Forall2 (fun x y => R x y /\ Q y) xs ys.
Proof.
  induction 1 as [ | x y xs ys Hxy _ IH]; intro HQ; constructor.
  - split; [exact Hxy | now inversion HQ].
  - apply IH. now inversion HQ.
Qed.

Lemma keeps_run_all XYZ_to_xyY fmin cs :
  xyY_frame XYZ_to_xyY -> fmin_frame fmin ->
  keeps_globals (run_all XYZ_to_xyY fmin cs).
Proof.
  intros Hxy Hfmin. induction cs as [ | c cs IH]; intro g.
  - reflexivity.
  - cbn [run_all]. unfold after at 1.
    rewrite (keeps_run XYZ_to_xyY fmin c Hxy (or_intror Hfmin) g).
    apply IH.
Qed.

Lemma transfer_returns g value b :
  rec_2020_loaded g ->
  exists y, returned (_rec_2020_transfer_function value b) g = Ok y.
Proof.
  intro Hg. unfold returned.
  destruct (Rlt_le_dec value (beta_ b)) as [H | H].
  - rewrite transfer_linear by assumption. eexists. reflexivity.
  - rewrite transfer_power by assumption. eexists. reflexivity.
Qed.

Lemma inverse_returns g value b :
  rec_2020_loaded g ->
  exists y, returned (_rec_2020_inverse_transfer_function value b) g = Ok y.
Proof.
  intro Hg. unfold returned.
  destruct (Rlt_le_dec value (beta_ b)) as [H | H].
  - rewrite inverse_linear by assumption. eexists. reflexivity.
  - rewrite inverse_power by assumption. eexists. reflexivity.
Qed.

(** ** C5: the conversions return on valid input *)

(** C5, as the code has it: a conversion function fails only on invalid
    numeric input or, for [OSA_UCS_to_XYZ], on optimisation parameters that
    do not suit [fmin].  In a module state left by loading, every call of
    [XYZ_to_OSA_UCS] on three components, of [OSA_UCS_to_XYZ] on a
    well-formed array whose number of elements is a multiple of 3 with
    optimisation parameters under which [fmin] returns the minimiser alone,
    of the Rec. 2020 transfer function on any float and of its inverse on a
    float up to 1e138 returns a result and raises nothing (the power in a
    transfer function is only reached with a positive base, arithmetic on
    arrays yields non-finite elements instead of raising).  Hence a call
    that raises was given an input that is not valid, or optimisation
    parameters that do not suit [fmin]. *)
Theorem conversions_return_on_valid_input
    (XYZ_to_xyY : list npfloat -> Py (list npfloat))
    (fmin : (list npfloat -> Py npfloat) -> list npfloat -> dict ->
            Py (list npfloat))
    (c : conversion_call) (g : Globals) :
  xyY_returns XYZ_to_xyY -> rec_2020_loaded g ->
  (valid_input c -> fmin_suits fmin c ->
   exists v, returned (run XYZ_to_xyY fmin c) g = Ok v)
  /\ (forall e, returned (run XYZ_to_xyY fmin c) g = Raise e ->
                ~ valid_input c \/ ~ fmin_suits fmin c).
Proof.
  intros Hxy Hg.
  assert (H : valid_input c -> fmin_suits fmin c ->
              exists v, returned (run XYZ_to_xyY fmin c) g = Ok v).
  { destruct c as [XYZ | Ljg parameters | value b | value b];
      cbn [valid_input fmin_suits run]; intros Hv Hfmin.
    - destruct (XYZ_to_OSA_UCS_returns XYZ_to_xyY XYZ g Hxy Hv)
        as (L & j & g_ & Hr).
      rewrite (returned_bind _ _ _ _ Hr). eexists. reflexivity.
    - destruct Hv as [Hwf Hmod].
      destruct (OSA_UCS_to_XYZ_shape XYZ_to_xyY fmin Ljg parameters g
                  Hxy Hfmin Hwf Hmod) as (rows & _ & _ & _ & Hr).
      rewrite (returned_bind _ _ _ _ Hr). eexists. reflexivity.
    - destruct (transfer_returns g value b Hg) as [y Hy].
      unfold REC_2020_TRANSFER_FUNCTION.
      rewrite (returned_bind _ _ _ _ Hy). eexists. reflexivity.
    - destruct (inverse_returns g value b Hg) as [y Hy].
      unfold REC_2020_INVERSE_TRANSFER_FUNCTION.
      rewrite (returned_bind _ _ _ _ Hy). eexists. reflexivity. }
  split; [exact H | ].
  intros e He.
  destruct (valid_input_dec c) as [Hv | Hv]; [right | now left].
  intro Hfmin. destruct (H Hv Hfmin) as [v Hok]. congruence.
Qed.

Lemma conversions_return_on_valid_input_witness :
  exists v,
    returned (run XYZ_to_xyY_sample fmin_full_output_sample
                  (Call_OSA_UCS_to_XYZ
                     {| shape := [3%nat];
                        data := [#(-4.49); #0.70; #3.03] |}
                     None))
             globals_sample = Ok v.
Proof.
  apply (conversions_return_on_valid_input
           XYZ_to_xyY_sample fmin_full_output_sample
           (Call_OSA_UCS_to_XYZ
              {| shape := [3%nat]; data := [#(-4.49); #0.70; #3.03] |}
              None)
           globals_sample sample_xyY_returns globals_sample_loaded).
  - split; reflexivity.
  - apply sample_full_output_returns. discriminate.
Defined.

(** C5 as stated fails on optimisation parameters, which are no numeric
    input: the same array, of valid shape, with [full_output=True] among the
    optimisation parameters makes [OSA_UCS_to_XYZ] raise ValueError, with an
    optimiser that heeds [full_output] as [scipy.optimize.fmin] does. *)
Lemma conversions_raise_on_full_output :
  valid_input
    (Call_OSA_UCS_to_XYZ
       {| shape := [3%nat]; data := [#(-4.49); #0.70; #3.03] |}
       (Some [("full_output"%string, PyBool true)]))
  /\ fmin_frame fmin_full_output_sample
  /\ returned (run XYZ_to_xyY_sample fmin_full_output_sample
                   (Call_OSA_UCS_to_XYZ
                      {| shape := [3%nat];
                         data := [#(-4.49); #0.70; #3.03] |}
                      (Some [("full_output"%string, PyBool true)])))
              globals_sample
     = Raise ValueError.
Proof.
  split; [split; reflexivity | ].
  split; [exact sample_full_output_frame | ].
  unfold run, returned, bind.
  rewrite (run_pair (OSA_UCS_to_XYZ _ _ _ _) globals_sample).
  rewrite OSA_UCS_to_XYZ_full_output;
    [reflexivity | exact sample_xyY_returns | reflexivity | reflexivity
    | discriminate | reflexivity].
Qed.

(** ** C6: the module constants are never mutated *)

(** C6: the dataset constants get their values when the modules are loaded,
    and no conversion call changes them: after any sequence of calls of the
    conversion functions, [M_XYZ_TO_RGB_OSA_UCS], [REC_2020_PRIMARIES],
    [REC_2020_TO_XYZ_MATRIX] and [XYZ_TO_REC_2020_MATRIX] (indeed the whole
    module state) are what loading made them. *)
Theorem constants_never_mutated
    (ILLUMINANT_D65 : R * R)
    (normalised_primary_matrix : list (R * R) -> R * R -> mat3)
    (XYZ_to_xyY : list npfloat -> Py (list npfloat))
    (fmin : (list npfloat -> Py npfloat) -> list npfloat -> dict ->
            Py (list npfloat))
    (cs : list conversion_call) (g : Globals) :
  xyY_frame XYZ_to_xyY -> fmin_frame fmin ->
  load_modules ILLUMINANT_D65 normalised_primary_matrix = Ok g ->
  let g' := after (run_all XYZ_to_xyY fmin cs) g in
  M_XYZ_TO_RGB_OSA_UCS g' = M_XYZ_TO_RGB_OSA_UCS_value
  /\ REC_2020_PRIMARIES g' = REC_2020_PRIMARIES_value
  /\ REC_2020_TO_XYZ_MATRIX g'
     = normalised_primary_matrix REC_2020_PRIMARIES_value ILLUMINANT_D65
  /\ XYZ_TO_REC_2020_MATRIX g' = XYZ_TO_REC_2020_MATRIX g
  /\ g' = g.
Proof.
  intros Hxy Hfmin Hload g'.
  assert (E : g' = g) by (apply keeps_run_all; assumption).
  rewrite E. clear g' E.
  unfold load_modules in Hload.
  destruct (linalg_inv _) as [inverse | e]; [ | discriminate].
  injection Hload as <-. repeat split.
Qed.

Lemma sample_modules_load :
  exists g, load_modules D65_sample normalised_primary_matrix_sample = Ok g.
Proof.
  unfold load_modules.
  destruct (linalg_inv _) as [inverse | e] eqn:E; [eexists; reflexivity | ].
  exfalso. unfold linalg_inv, normalised_primary_matrix_sample in E.
  destruct (Req_dec_T _ 0) as [Z | N]; [ | discriminate].
  apply sample_matrix_regular. exact Z.
Qed.

Lemma constants_never_mutated_witness :
  exists g,
    load_modules D65_sample normalised_primary_matrix_sample = Ok g
    /\ after (run_all XYZ_to_xyY_sample fmin_sample
                [Call_XYZ_to_OSA_UCS [#7.049534; #10.08; #9.558313];
                 Call_REC_2020_TRANSFER_FUNCTION 0.5 true]) g = g.
Proof.
  destruct sample_modules_load as [g Hg].
  exists g. split; [exact Hg | ].
  apply (constants_never_mutated
           D65_sample normalised_primary_matrix_sample
           XYZ_to_xyY_sample fmin_sample _ g
           sample_xyY_frame sample_fmin_frame Hg).
Defined.

(** ** C7: the closed-form conversions are pure and deterministic *)

(** C7: a call of [XYZ_to_OSA_UCS] or of a Rec. 2020 transfer function
    leaves the module state as it found it, and the same call made again
    right after it, on the same input, returns the same output (and again
    leaves the state unchanged). *)
Theorem closed_form_conversions_pure
    (XYZ_to_xyY : list npfloat -> Py (list npfloat))
    (fmin : (list npfloat -> Py npfloat) -> list npfloat -> dict ->
            Py (list npfloat))
    (c : conversion_call) (g : Globals) :
  xyY_frame XYZ_to_xyY -> closed_form c ->
  let call := run XYZ_to_xyY fmin c in
  after call g = g
  /\ returned call (after call g) = returned call g
  /\ after call (after call g) = g.
Proof.
  intros Hxy Hc call.
  assert (E : after call g = g)
    by (apply keeps_run; [assumption | now left]).
  rewrite E. repeat split; assumption.
Qed.

Lemma closed_form_conversions_pure_witness :
  let call :=
    run XYZ_to_xyY_sample fmin_sample
        (Call_XYZ_to_OSA_UCS [#7.049534; #10.08; #9.558313]) in
  after call globals_sample = globals_sample
  /\ returned call (after call globals_sample) = returned call globals_sample
  /\ after call (after call globals_sample) = globals_sample.
Proof.
  apply (closed_form_conversions_pure XYZ_to_xyY_sample fmin_sample
           (Call_XYZ_to_OSA_UCS [#7.049534; #10.08; #9.558313])
           globals_sample sample_xyY_frame).
  exact I.
Defined.

(** ** C8: OSA_UCS_to_XYZ keeps the shape of its input *)

(** C8, as the code has it: for an array [Ljg] whose number of elements is
    a multiple of 3, and optimisation parameters under which [fmin] returns
    the minimiser alone (the default ones, for [scipy.optimize.fmin]),
    [OSA_UCS_to_XYZ] returns an array of the shape of [Ljg].  Its elements
    are, row by row, the points [fmin] returns for the rows of
    [Ljg.reshape((-1, 3))]: each row of three is optimised on its own, from
    the starting point [x_0], against the distance to that row. *)
Theorem OSA_UCS_to_XYZ_keeps_shape
    (XYZ_to_xyY : list npfloat -> Py (list npfloat))
    (fmin : (list npfloat -> Py npfloat) -> list npfloat -> dict ->
            Py (list npfloat))
    (Ljg : ndarray) (optimisation_parameters : option dict) (g : Globals) :
  xyY_returns XYZ_to_xyY -> xyY_frame XYZ_to_xyY ->
  fmin_returns fmin (optimisation_settings optimisation_parameters) ->
  fmin_frame fmin ->
  well_formed Ljg -> (size_of (shape Ljg) mod 3 = 0)%nat ->
  exists XYZ XYZ_rows,
    returned (OSA_UCS_to_XYZ XYZ_to_xyY fmin Ljg optimisation_parameters) g
    = Ok XYZ
    /\ shape XYZ = shape Ljg
    /\ well_formed XYZ
    /\ concat (rows3 (data Ljg)) = data Ljg
    /\ data XYZ = concat XYZ_rows
    /\ Forall2
         (fun Ljg_i XYZ_i =>
            returned
              (fmin (fun XYZ => function_error XYZ_to_xyY XYZ Ljg_i) x_0
                    (optimisation_settings optimisation_parameters)) g
            = Ok XYZ_i
            /\ length XYZ_i = 3%nat)
         (rows3 (data Ljg)) XYZ_rows.
Proof.
  intros Hxy Hxyf Hfmin Hfminf Hwf Hmod.
  rewrite <- Hwf in Hmod.
  destruct (OSA_UCS_to_XYZ_shape XYZ_to_xyY fmin Ljg optimisation_parameters
              g Hxy Hfmin Hwf Hmod) as (rows & Hrows & Hall & Hlen & Hr).
  exists {| shape := shape Ljg; data := concat rows |}, rows.
  split; [exact Hr | ]. split; [reflexivity | ].
  split.
  { unfold well_formed. cbn [data shape].
    rewrite concat_triplets_length by assumption.
    rewrite Hlen, <- Hwf.
    rewrite <- (rows3_concat _ Hmod) at 2.
    symmetry. apply concat_triplets_length, rows3_triplets. }
  split; [now apply rows3_concat | ].
  split; [reflexivity | ].
  apply Forall2_and_right; [ | exact Hall].
  apply (comprehension_pointwise _ _ _ g); [ | exact Hrows].
  intro row. apply Hfminf. intro XYZ.
  now apply keeps_function_error.
Qed.

Lemma OSA_UCS_to_XYZ_keeps_shape_witness :
  exists XYZ,
    returned
      (OSA_UCS_to_XYZ XYZ_to_xyY_sample fmin_full_output_sample
         {| shape := [2; 1; 3]%nat;
            data := [#(-4.49); #0.70; #3.03; #(-9); #0; #0] |}
         None) globals_sample = Ok XYZ
    /\ shape XYZ = [2; 1; 3]%nat.
Proof.
  destruct (OSA_UCS_to_XYZ_keeps_shape
              XYZ_to_xyY_sample fmin_full_output_sample
              {| shape := [2; 1; 3]%nat;
                 data := [#(-4.49); #0.70; #3.03; #(-9); #0; #0] |}
              None globals_sample
              sample_xyY_returns sample_xyY_frame
              (sample_full_output_returns
                 (optimisation_settings None)
                 ltac:(discriminate))
              sample_full_output_frame
              eq_refl eq_refl)
    as (XYZ & rows & Hr & Hs & _).
  exists XYZ. split; assumption.
Defined.

(** C8 as stated fails on optimisation parameters: the same array, whose
    six elements are a multiple of 3, with [full_output=True] among the
    optimisation parameters gets no array back, [OSA_UCS_to_XYZ] raises
    ValueError when it reshapes the two rows of seven items to the shape of
    the input. *)
Lemma OSA_UCS_to_XYZ_full_output_loses_shape :
  well_formed {| shape := [2; 1; 3]%nat;
                 data := [#(-4.49); #0.70; #3.03; #(-9); #0; #0] |}
  /\ (size_of [2; 1; 3] mod 3 = 0)%nat
  /\ fmin_frame fmin_full_output_sample
  /\ returned
       (OSA_UCS_to_XYZ XYZ_to_xyY_sample fmin_full_output_sample
          {| shape := [2; 1; 3]%nat;
             data := [#(-4.49); #0.70; #3.03; #(-9); #0; #0] |}
          (Some [("full_output"%string, PyBool true)])) globals_sample
     = Raise ValueError.
Proof.
  split; [reflexivity | ]. split; [reflexivity | ].
  split; [exact sample_full_output_frame | ].
  apply OSA_UCS_to_XYZ_full_output;
    [exact sample_xyY_returns | reflexivity | reflexivity
    | discriminate | reflexivity].
Qed.

(** ** C3: the round trip through OSA UCS *)

Lemma np_mul_none_r (a : npfloat) : a [*] None = None.
Proof. destruct a; reflexivity. Qed.

Lemma np_add_none_r (a : npfloat) : a [+] None = None.
Proof. destruct a; reflexivity. Qed.

Lemma np_sub_none_r (a : npfloat) : a [-] None = None.
Proof. destruct a; reflexivity. Qed.

Lemma linalg_norm_blind (d : npfloat) : linalg_norm [d; None; None] = None.
Proof.
  unfold linalg_norm. cbn [fold_right].
  change (np_square None) with (@None R).
  change (None [+] ?x) with (@None R).
  now rewrite np_add_none_r.
Qed.

(** On [XYZ = (0, 0, Z)] with [Z > 0] the first component of
    [dot_vector(M_XYZ_TO_RGB_OSA_UCS, XYZ)] is [-0.1648 * Z], its power
    [1 / 3] is not a number, and neither are [j] and [g]. *)
Lemma XYZ_to_OSA_UCS_not_finite
    (XYZ_to_xyY : list npfloat -> Py (list npfloat)) (g : Globals) (Z : R) :
  xyY_returns XYZ_to_xyY -> xyY_frame XYZ_to_xyY ->
  M_XYZ_TO_RGB_OSA_UCS g = M_XYZ_TO_RGB_OSA_UCS_value ->
  0 < Z ->
  exists L,
    returned (XYZ_to_OSA_UCS XYZ_to_xyY [#0; #0; #Z]) g
    = Ok [L; None; None].
Proof.
  intros Hret Hframe HM HZ.
  destruct (Hret [#0; #0; #Z] g eq_refl) as (x & y & Y & Hxy).
  unfold XYZ_to_OSA_UCS.
  rewrite (returned_bind _ _ _ _ Hxy), (Hframe _ g).
  unfold returned, bind, tsplit, ret, read, dot_vector.
  rewrite HM. unfold M_XYZ_TO_RGB_OSA_UCS_value.
  cbn [map np_dot bind ret fst]. unfold bind, ret. cbn [fst tstack].
  assert (Hneg : np_power (#0.799 [*] #0 [+] #0.4194 [*] #0
                           [+] #(-0.1648) [*] #Z) (1 / 3) = None).
  { unfold np_scalar, np_mul, np_add, np_lift2, np_power.
    destruct (Rlt_dec _ 0) as [_ | H]; [reflexivity | exfalso; lra]. }
  rewrite Hneg.
  change (None [*] #1.7) with (@None R).
  change (None [*] #(-13.7)) with (@None R).
  change (np_add None ?a) with (@None R).
  eexists. apply f_equal.
  apply f_equal2; [reflexivity | ].
  apply f_equal2; [apply np_mul_none_r | ].
  apply f_equal2; [apply np_mul_none_r | reflexivity].
Qed.

(** Against a target whose [j] and [g] are not finite, the error function
    does not see the target's lightness: it raises, or returns a distance
    that is not finite, alike for every target of that kind. *)
Lemma function_error_blind
    (XYZ_to_xyY : list npfloat -> Py (list npfloat))
    (XYZ : list npfloat) (L L' : npfloat) (g : Globals) :
  function_error XYZ_to_xyY XYZ [L; None; None] g
  = function_error XYZ_to_xyY XYZ [L'; None; None] g.
Proof.
  unfold function_error, bind.
  destruct (XYZ_to_OSA_UCS XYZ_to_xyY XYZ g) as [[r | e] g1];
    [ | reflexivity].
  destruct r as [ | a [ | b [ | c [ | d r]]]]; cbn; try reflexivity.
  rewrite !np_sub_none_r.
  now rewrite !linalg_norm_blind.
Qed.

(** Hence [OSA_UCS_to_XYZ] hands [fmin] the same objective for all such
    targets, and returns the same for all of them. *)
Lemma OSA_UCS_to_XYZ_blind
    (XYZ_to_xyY : list npfloat -> Py (list npfloat))
    (fmin : (list npfloat -> Py npfloat) -> list npfloat -> dict ->
            Py (list npfloat))
    (L L' : npfloat) (parameters : option dict) :
  OSA_UCS_to_XYZ XYZ_to_xyY fmin
    {| shape := [3%nat]; data := [L; None; None] |} parameters
  = OSA_UCS_to_XYZ XYZ_to_xyY fmin
      {| shape := [3%nat]; data := [L'; None; None] |} parameters.
Proof.
  unfold OSA_UCS_to_XYZ, reshape_rows3. cbn [data shape rows3].
  change ((length [L; None; None] mod 3 =? 0)%nat) with true.
  change ((length [L'; None; None] mod 3 =? 0)%nat) with true.
  apply functional_extensionality. intro g.
  cbv beta iota delta [bind ret comprehension].
  match goal with
  | |- ?lhs = ?rhs =>
      match lhs with
      | context [fmin ?f1 _ _ _] =>
          match rhs with
          | context [fmin ?f2 _ _ _] =>
              replace f1 with f2; [reflexivity | ]
          end
      end
  end.
  apply functional_extensionality. intro XYZ.
  apply functional_extensionality. intro g'.
  apply function_error_blind.
Qed.

(** C3 (the code departs from it): the round trip does not recover every
    tristimulus value of [0, 100].  For [XYZ = (0, 0, Z)] with [Z > 0],
    [XYZ_to_OSA_UCS] raises the negative first component of
    [M_XYZ_TO_RGB_OSA_UCS . XYZ] to the power [1 / 3] and returns a [j] and
    a [g] that are not numbers; the error function [OSA_UCS_to_XYZ] then
    minimises is not finite anywhere and the same for every such [Z], so
    the round trip returns one and the same result for all of them, for
    [(0, 0, 100)] as for [(0, 0, 50)], whatever the optimiser. *)
Theorem OSA_UCS_round_trip_blind_on_blue
    (XYZ_to_xyY : list npfloat -> Py (list npfloat))
    (fmin : (list npfloat -> Py npfloat) -> list npfloat -> dict ->
            Py (list npfloat))
    (optimisation_parameters : option dict) (g : Globals) (Z Z' : R) :
  xyY_returns XYZ_to_xyY -> xyY_frame XYZ_to_xyY ->
  M_XYZ_TO_RGB_OSA_UCS g = M_XYZ_TO_RGB_OSA_UCS_value ->
  0 < Z -> 0 < Z' ->
  (exists L,
     returned (XYZ_to_OSA_UCS XYZ_to_xyY [#0; #0; #Z]) g
     = Ok [L; None; None])
  /\ returned (OSA_UCS_round_trip XYZ_to_xyY fmin [#0; #0; #Z]
                                  optimisation_parameters) g
     = returned (OSA_UCS_round_trip XYZ_to_xyY fmin [#0; #0; #Z']
                                    optimisation_parameters) g.
Proof.
  intros Hret Hframe HM HZ HZ'.
  destruct (XYZ_to_OSA_UCS_not_finite XYZ_to_xyY g Z Hret Hframe HM HZ)
    as [L HL].
  destruct (XYZ_to_OSA_UCS_not_finite XYZ_to_xyY g Z' Hret Hframe HM HZ')
    as [L' HL'].
  split; [exists L; exact HL | ].
  unfold OSA_UCS_round_trip.
  rewrite (returned_bind _ _ _ _ HL), (returned_bind _ _ _ _ HL').
  rewrite !(keeps_XYZ_to_OSA_UCS XYZ_to_xyY _ Hframe g).
  cbn [length].
  now rewrite (OSA_UCS_to_XYZ_blind XYZ_to_xyY fmin L L').
Qed.

Lemma OSA_UCS_round_trip_blind_on_blue_witness :
  (exists L,
     returned (XYZ_to_OSA_UCS XYZ_to_xyY_sample [#0; #0; #100])
              globals_sample = Ok [L; None; None])
  /\ returned (OSA_UCS_round_trip XYZ_to_xyY_sample fmin_sample
                                  [#0; #0; #100] None) globals_sample
     = returned (OSA_UCS_round_trip XYZ_to_xyY_sample fmin_sample
                                    [#0; #0; #50] None) globals_sample.
Proof.
  apply (OSA_UCS_round_trip_blind_on_blue XYZ_to_xyY_sample fmin_sample
           None globals_sample 100 50
           sample_xyY_returns sample_xyY_frame eq_refl); lra.
Defined.

(** ** C9: the context managers of verbose.py *)

Lemma store_same (h : ref -> list filter_entry) r l : store h r l r = l.
Proof. unfold store. now rewrite Nat.eqb_refl. Qed.

(** On exit, [suppress_warnings] binds [warnings.filters] and
    [warnings.showwarning] to the objects they named on entry, whether the
    body returned or raised. *)
Lemma suppress_warnings_restores_bindings {O : Type}
    (colour_warnings_only : bool) (body : block O) (s : interpreter O) :
  let s' := snd (suppress_warnings colour_warnings_only body s) in
  warnings_filters s' = warnings_filters s
  /\ warnings_showwarning s' = warnings_showwarning s
  /\ fst (suppress_warnings colour_warnings_only body s)
     = fst (body (snd (filter_warnings true colour_warnings_only s))).
Proof.
  unfold suppress_warnings.
  destruct (body _) as [r s2]. cbn. repeat split.
Qed.

(** With a body that leaves the filters alone, the list that
    [warnings.filters] names on exit is the list object of before, which
    [filterwarnings] changed in place: the new entry is still in front. *)
Lemma suppress_warnings_filters_on_exit {O : Type}
    (colour_warnings_only : bool) (s : interpreter O) :
  let entry :=
    (ignore, if colour_warnings_only then ColourWarning else Warning) in
  current_filters (snd (suppress_warnings colour_warnings_only pass s))
  = entry :: remove_first entry (current_filters s).
Proof.
  unfold suppress_warnings, pass, filter_warnings, filterwarnings,
    current_filters.
  cbn. apply store_same.
Qed.

Lemma remove_first_absent (x : filter_entry) (l : list filter_entry) :
  forallb (fun y => negb (filter_entry_eqb x y)) l = true ->
  remove_first x l = l.
Proof.
  induction l as [ | y l IH]; simpl; [reflexivity | ].
  destruct (filter_entry_eqb x y); simpl; [discriminate | ].
  intro H. now rewrite IH.
Qed.

(** Whenever the entry was not installed before, it stays installed after
    the block: the filters are one entry longer than on entry. *)
Lemma suppress_warnings_grows_filters {O : Type}
    (colour_warnings_only : bool) (s : interpreter O) :
  let entry :=
    (ignore, if colour_warnings_only then ColourWarning else Warning) in
  forallb (fun y => negb (filter_entry_eqb entry y)) (current_filters s)
  = true ->
  current_filters (snd (suppress_warnings colour_warnings_only pass s))
  = entry :: current_filters s.
Proof.
  intros entry H.
  rewrite suppress_warnings_filters_on_exit.
  fold entry. now rewrite remove_first_absent.
Qed.

(** C9 (the code departs from it): [suppress_warnings] does not restore
    [warnings.filters].  Entered with no filter installed and left by a body
    that does nothing, it leaves the filter [('ignore', ColourWarning)]
    installed: the name is bound again to the list saved on entry, but that
    list is the very object [filterwarnings] changed in place.  The same
    happens when the body raises. *)
Theorem suppress_warnings_leaves_filter_installed :
  current_filters fresh_interpreter = []
  /\ fst (suppress_warnings true pass fresh_interpreter) = Ok tt
  /\ current_filters (snd (suppress_warnings true pass fresh_interpreter))
     = [(ignore, ColourWarning)]
  /\ current_filters
       (snd (suppress_warnings true (fun s => (Raise ValueError, s))
                               fresh_interpreter))
     = [(ignore, ColourWarning)].
Proof.
  split; [reflexivity | ].
  split; [reflexivity | ].
  split.
  - now rewrite suppress_warnings_filters_on_exit.
  - unfold suppress_warnings, filter_warnings, filterwarnings,
      current_filters.
    reflexivity.
Qed.

(** [numpy_print_options] does restore the print options: once the options
    were set on entry, the options on exit are those of before entry,
    whatever the body did to them and whether it returned or raised; and the
    block ends as its body ended. *)
Lemma numpy_print_options_restores {O K : Type}
    (get_printoptions : O -> K)
    (set_printoptions : K -> O -> result unit * O)
    (k : K) (body : block O) (s : interpreter O) :
  snapshot_restores get_printoptions set_printoptions ->
  fst (set_printoptions k (np_printoptions s)) = Ok tt ->
  let entered := snd (call_set_printoptions set_printoptions k s) in
  let exit := numpy_print_options get_printoptions set_printoptions k body s
  in
  np_printoptions (snd exit) = np_printoptions s
  /\ fst exit = fst (body entered).
Proof.
  intros Hlaw Hentry. unfold numpy_print_options, call_set_printoptions.
  destruct (set_printoptions k (np_printoptions s)) as [r o] eqn:E.
  cbn in Hentry. subst r. cbn.
  destruct (body _) as [rb s2]. cbn.
  rewrite Hlaw. cbn. split; reflexivity.
Qed.

Lemma sample_snapshot_restores :
  snapshot_restores get_printoptions_sample set_printoptions_sample.
Proof. intros o o'. reflexivity. Qed.

Lemma numpy_print_options_restores_sample :
  let s := {| heap := fun _ => []; warnings_filters := 0%nat;
              warnings_showwarning := 0%nat; np_printoptions := 8%Z |} in
  let body : block printoptions_sample :=
    fun s' => (Raise TypeError,
               snd (call_set_printoptions set_printoptions_sample
                      (Some 3%Z) s')) in
  let exit :=
    numpy_print_options get_printoptions_sample set_printoptions_sample
                        (Some 1%Z) body s in
  np_printoptions (snd exit) = 8%Z /\ fst exit = Raise TypeError.
Proof.
  intros s body exit.
  exact (numpy_print_options_restores
           get_printoptions_sample set_printoptions_sample (Some 1%Z)
           body s sample_snapshot_restores eq_refl).
Defined.

(** ** C10: message_box *)

Lemma length_append (a b : string) :
  String.length (append a b) = (String.length a + String.length b)%nat.
Proof. induction a as [ | c a IH]; simpl; [reflexivity | now rewrite IH]. Qed.

Lemma length_replicate (n : nat) (c : ascii) :
  String.length (replicate n c) = n.
Proof. induction n as [ | n IH]; simpl; [reflexivity | now rewrite IH]. Qed.

Lemma len_append (a b : string) : len (append a b) = (len a + len b)%Z.
Proof. unfold len. rewrite length_append. lia. Qed.

Lemma len_str_mul (c : ascii) (n : Z) : len (str_mul c n) = Z.max 0 n.
Proof. unfold len, str_mul. rewrite length_replicate. lia. Qed.

(** The length of a line of the box, whatever the arguments. *)
Lemma len_inner (width padding : Z) (text : string) :
  len (inner width padding text)
  = (2 + 2 * Z.max 0 padding + len text
     + Z.max 0 (width - len text - padding * 2 - 2))%Z.
Proof.
  unfold inner. repeat rewrite len_append. repeat rewrite len_str_mul.
  change (len "*") with 1%Z. lia.
Qed.

Lemma len_inner_fits (width padding : Z) (text : string) :
  (0 <= padding)%Z -> (len text <= width - padding * 2 - 2)%Z ->
  len (inner width padding text) = width.
Proof. intros Hp Hfit. rewrite len_inner. lia. Qed.

Lemma tab_free_append (a b : string) :
  tab_free (append a b) = tab_free a && tab_free b.
Proof.
  induction a as [ | c a IH]; simpl; [reflexivity | ].
  rewrite IH. now rewrite andb_assoc.
Qed.

Lemma tab_free_spaces (n : nat) : tab_free (replicate n " "%char) = true.
Proof. induction n as [ | n IH]; simpl; [reflexivity | exact IH]. Qed.

Lemma tab_free_expandtabs_from (column : nat) (s : string) :
  tab_free (expandtabs_from column s) = true.
Proof.
  revert column. induction s as [ | c s IH]; intro column; simpl;
    [reflexivity | ].
  destruct (Ascii.eqb c tab) eqn:Et.
  - rewrite tab_free_append, tab_free_spaces. apply IH.
  - destruct (_ || _); simpl; rewrite Et; apply IH.
Qed.

Lemma expandtabs_from_tab_free (column : nat) (s : string) :
  tab_free s = true -> expandtabs_from column s = s.
Proof.
  revert column. induction s as [ | c s IH]; intro column; simpl;
    [reflexivity | ].
  destruct (Ascii.eqb c tab); simpl; [discriminate | ].
  intro H. destruct (_ || _); now rewrite IH.
Qed.

Lemma split_lines_nonempty (s : string) : split_lines s <> [].
Proof.
  induction s as [ | c s IH]; simpl; [discriminate | ].
  destruct (Ascii.eqb c newline); [discriminate | ].
  destruct (split_lines s); [contradiction | discriminate].
Qed.

Lemma sequence_map_ok {A B : Type} (f : A -> result B)
    (xs : list A) (ys : list B) :
  sequence (map f xs) = Ok ys -> Forall2 (fun x y => f x = Ok y) xs ys.
Proof.
  revert ys. induction xs as [ | x xs IH]; simpl; intros ys H.
  - injection H as <-. constructor.
  - destruct (f x) as [y | e] eqn:Ex; [ | discriminate].
    destruct (sequence (map f xs)) as [ys' | e]; [ | discriminate].
    injection H as <-. constructor; [exact Ex | now apply IH].
Qed.

Section MessageBoxFacts.

Variable wrap_chunks : Z -> string -> list string.
Hypothesis wrapper_tab_free : tab_free_wrapper wrap_chunks.

Lemma chain_lines_tab_free (width : Z) (texts : list string)
    (lines : list (list string)) :
  Forall2 (fun text wrapped =>
             TextWrapper_wrap wrap_chunks width text = Ok wrapped)
          texts lines ->
  Forall (fun segment => tab_free segment = true) (chain_lines lines).
Proof.
  unfold chain_lines.
  induction 1 as [ | text wrapped texts lines Hw _ IH]; simpl;
    [constructor | ].
  apply Forall_app. split; [ | exact IH].
  unfold TextWrapper_wrap in Hw.
  destruct (width <=? 0)%Z; [discriminate | ]. injection Hw as <-.
  destruct (wrap_chunks width (expandtabs text)) as [ | l ls] eqn:E.
  - repeat constructor.
  - rewrite <- E. apply Forall_forall. intros line Hin.
    apply (wrapper_tab_free width (expandtabs text)); [ | exact Hin].
    apply tab_free_expandtabs_from.
Qed.

(** When the wrapping succeeds, the room left for the text is positive and
    no segment holds a tab. *)
Lemma wrapped_segments_ok (message : string) (width padding : Z)
    (segments : list string) :
  wrapped_segments wrap_chunks message width padding = Ok segments ->
  (0 < width - padding * 2 - 2)%Z
  /\ Forall (fun segment => tab_free segment = true) segments.
Proof.
  unfold wrapped_segments.
  destruct (sequence _) as [lines | e] eqn:E; [ | discriminate].
  intro H. injection H as <-.
  apply sequence_map_ok in E. split.
  - pose proof (split_lines_nonempty message) as Hne.
    destruct E as [ | text wrapped texts lines Hw _]; [contradiction | ].
    unfold TextWrapper_wrap in Hw.
    destruct (width - padding * 2 - 2 <=? 0)%Z eqn:Ew; [discriminate | ].
    lia.
  - now apply (chain_lines_tab_free (width - padding * 2 - 2)
                                    (split_lines message)).
Qed.

End MessageBoxFacts.

(** C10, as the code has it: for a padding that is not negative,
    [message_box] returns [True] and every line it hands to
    [print_callable] is exactly [width] characters long, provided the message
    could be wrapped and each of its wrapped segments fits in
    [width - 2 * padding - 2] characters.  The lines are the two rules, the
    two blank lines of the box and one line per segment. *)
Theorem message_box_lines_have_width
    (wrap_chunks : Z -> string -> list string)
    (message : string) (width padding : Z) (segments : list string) :
  tab_free_wrapper wrap_chunks ->
  (0 <= padding)%Z ->
  wrapped_segments wrap_chunks message width padding = Ok segments ->
  Forall (fun segment => (len segment <= width - padding * 2 - 2)%Z)
         segments ->
  fst (message_box wrap_chunks message width padding) = Ok true
  /\ Forall (fun line => len line = width)
            (snd (message_box wrap_chunks message width padding))
  /\ length (snd (message_box wrap_chunks message width padding))
     = (4 + length segments)%nat.
Proof.
  intros Hwrap Hpad Hsegments Hfit.
  destruct (wrapped_segments_ok wrap_chunks Hwrap message width padding
              segments Hsegments) as [Hroom Hfree].
  unfold message_box. rewrite Hsegments. cbn [fst snd].
  assert (Hrule : len (str_mul "="%char width) = width)
    by (rewrite len_str_mul; lia).
  assert (Hblank : len (inner width padding "") = width)
    by (apply len_inner_fits; [assumption | change (len "") with 0%Z; lia]).
  split; [reflexivity | ]. split.
  - repeat (apply Forall_app; split).
    + repeat constructor; assumption.
    + apply Forall_map. rewrite Forall_forall in *.
      intros segment Hin. unfold expandtabs.
      rewrite expandtabs_from_tab_free by now apply Hfree.
      apply len_inner_fits; [assumption | now apply Hfit].
    + repeat constructor; assumption.
  - repeat rewrite length_app. rewrite length_map. simpl. lia.
Qed.

Lemma wrap_chunks_sample_tab_free : tab_free_wrapper wrap_chunks_sample.
Proof.
  intros width text line Hfree Hin. unfold wrap_chunks_sample in Hin.
  destruct text; [contradiction | ].
  destruct Hin as [<- | []]. exact Hfree.
Qed.

Lemma message_box_lines_have_width_witness :
  fst (message_box wrap_chunks_sample "Lorem ipsum" 20 3) = Ok true
  /\ Forall (fun line => len line = 20%Z)
            (snd (message_box wrap_chunks_sample "Lorem ipsum" 20 3))
  /\ length (snd (message_box wrap_chunks_sample "Lorem ipsum" 20 3))
     = 5%nat.
Proof.
  apply (message_box_lines_have_width wrap_chunks_sample "Lorem ipsum" 20 3
           ["Lorem ipsum"%string] wrap_chunks_sample_tab_free).
  - lia.
  - reflexivity.
  - repeat constructor. vm_compute. discriminate.
Defined.

(** C10 as stated fails for a negative padding: [' ' * padding] is then
    empty while [width - len(text) - padding * 2 - 2] still counts the
    padding.  With [width = 10] and [padding = -1] the message [hi] is
    wrapped in one segment that fits in the 10 characters left for it, and
    [message_box] returns [True], yet the two blank lines and the text line
    it prints are 12 characters long. *)
Lemma message_box_negative_padding :
  wrapped_segments wrap_chunks_sample "hi" 10 (-1) = Ok ["hi"%string]
  /\ Forall (fun segment => (len segment <= 10 - (-1) * 2 - 2)%Z)
            ["hi"%string]
  /\ message_box wrap_chunks_sample "hi" 10 (-1)
     = (Ok true,
        ["=========="; "*          *"; "*hi        *"; "*          *";
         "=========="]%string)
  /\ ~ Forall (fun line => len line = 10%Z)
              (snd (message_box wrap_chunks_sample "hi" 10 (-1))).
Proof.
  split; [reflexivity | ]. split.
  { repeat constructor. vm_compute. discriminate. }
  split; [reflexivity | ].
  intro H. apply Forall_inv_tail, Forall_inv in H.
  vm_compute in H. discriminate H.
Qed.

(** * Further properties *)

(** ** rec_2020.py: where the pair inverts, ranges and monotonicity *)

(** Decoding after encoding gives the linear value back below
    [beta / 4.5] and from [beta] on, for either setting. *)
Theorem rec_2020_round_trip_exact (g : Globals) (x : R) (b : bool) :
  rec_2020_loaded g -> x < beta_ b / 4.5 \/ beta_ b <= x ->
  returned (rec_2020_round_trip x b) g = Ok x.
Proof.
  intros Hg [H | H].
  - now apply round_trip_exact_low.
  - now apply round_trip_exact_high.
Qed.

Lemma rec_2020_round_trip_exact_witness :
  returned (rec_2020_round_trip 0.5 true) globals_sample = Ok 0.5.
Proof.
  apply (rec_2020_round_trip_exact globals_sample 0.5 true).
  - reflexivity.
  - right. simpl. lra.
Defined.

Lemma Rpower_045_bounds (b : bool) :
  (if b then 0.1640 else 0.16441) < Rpower (beta_ b) 0.45
  /\ Rpower (beta_ b) 0.45 < (if b then 0.1641 else 0.16443).
Proof.
  rewrite exponent_045.
  destruct b; simpl alpha; simpl beta; split;
    (apply Rpower_ratio_above || apply Rpower_ratio_below);
    (lra || lia).
Qed.

(** In real arithmetic, encoding after decoding gives the encoded value
    back below [beta] and from 0.0815 (the encoder's power branch starts
    just below 0.0815) up to 1e138 (the decoder's power stays in the range
    of doubles), for either setting. *)
Theorem rec_2020_decode_encode_exact (g : Globals) (v : R) (b : bool) :
  rec_2020_loaded g ->
  v < beta_ b \/ 0.0815 <= v <= float_pow_range ->
  returned (y <- REC_2020_INVERSE_TRANSFER_FUNCTION v b ;;
            REC_2020_TRANSFER_FUNCTION y b) g = Ok v.
Proof.
  intros Hg H.
  unfold REC_2020_TRANSFER_FUNCTION, REC_2020_INVERSE_TRANSFER_FUNCTION,
    returned, bind.
  pose proof (constants_range b) as [[Ha1 Ha2] [Hb1 Hb2]].
  destruct H as [H | [H _]].
  - rewrite inverse_linear by assumption.
    rewrite transfer_linear by (assumption || lra).
    cbn [fst]. f_equal. lra.
  - rewrite inverse_power by (assumption || lra).
    set (base := (v + (alpha_ b - 1)) / alpha_ b).
    assert (Hbase : Rpower (beta_ b) 0.45 < base).
    { pose proof (Rpower_045_bounds b) as [_ Hhi].
      unfold base. apply Rmult_lt_reg_r with (alpha_ b); [lra | ].
      unfold Rdiv. rewrite Rmult_assoc, Rinv_l, Rmult_1_r by lra.
      destruct b; simpl alpha in *; simpl beta in *; nra. }
    assert (Hpos : 0 < Rpower (beta_ b) 0.45) by apply exp_pos.
    assert (Hy : beta_ b < Rpower base (1 / 0.45)).
    { replace (beta_ b) with (Rpower (Rpower (beta_ b) 0.45) (1 / 0.45)).
      - apply Rlt_Rpower_l; lra.
      - rewrite Rpower_mult. replace (0.45 * (1 / 0.45)) with 1 by lra.
        apply Rpower_1. lra. }
    rewrite transfer_power by (assumption || lra).
    cbn [fst]. f_equal.
    rewrite Rpower_mult. replace (1 / 0.45 * 0.45) with 1 by lra.
    rewrite Rpower_1 by lra.
    unfold base. field. lra.
Qed.

Lemma rec_2020_decode_encode_exact_witness :
  returned (y <- REC_2020_INVERSE_TRANSFER_FUNCTION 0.5 true ;;
            REC_2020_TRANSFER_FUNCTION y true) globals_sample = Ok 0.5.
Proof.
  apply (rec_2020_decode_encode_exact globals_sample 0.5 true).
  - reflexivity.
  - right. unfold float_pow_range. lra.
Defined.

Lemma Rpower_le_1 (x y : R) : 0 < x <= 1 -> 0 <= y -> Rpower x y <= 1.
Proof.
  intros Hx Hy.
  replace 1 with (Rpower 1 y).
  - apply Rle_Rpower_l; lra.
  - unfold Rpower. rewrite ln_1, Rmult_0_r. apply exp_0.
Qed.

(** The transfer function maps [0, 1] into [0, 1], 0 to 0 and 1 to 1. *)
Theorem rec_2020_transfer_unit_interval (g : Globals) (value : R) (b : bool) :
  rec_2020_loaded g -> 0 <= value <= 1 ->
  exists y,
    returned (_rec_2020_transfer_function value b) g = Ok y
    /\ 0 <= y <= 1
    /\ (value = 0 -> y = 0) /\ (value = 1 -> y = 1).
Proof.
  intros Hg [H0 H1]. unfold returned.
  pose proof (constants_range b) as [[Ha1 Ha2] [Hb1 Hb2]].
  destruct (Rlt_le_dec value (beta_ b)) as [H | H].
  - rewrite transfer_linear by assumption.
    eexists. split; [reflexivity | ]. repeat split; intros; lra.
  - rewrite transfer_power by assumption.
    eexists. split; [reflexivity | ].
    pose proof (transfer_power_above_beta b value H) as Hlow.
    assert (Hp : Rpower value 0.45 <= 1) by (apply Rpower_le_1; lra).
    repeat split; try nra.
    intros ->. replace (Rpower 1 0.45) with 1; [lra | ].
    unfold Rpower. rewrite ln_1, Rmult_0_r. symmetry. apply exp_0.
Qed.

Lemma rec_2020_transfer_unit_interval_witness :
  exists y,
    returned (_rec_2020_transfer_function 1 false) globals_sample = Ok y
    /\ 0 <= y <= 1
    /\ (1 = 0 -> y = 0) /\ (1 = 1 -> y = 1).
Proof.
  apply (rec_2020_transfer_unit_interval globals_sample 1 false).
  - reflexivity.
  - lra.
Defined.

(** The inverse transfer function maps [0, 1] into [0, 1], 0 to 0 and 1 to
    1. *)
Theorem rec_2020_inverse_unit_interval (g : Globals) (value : R) (b : bool) :
  rec_2020_loaded g -> 0 <= value <= 1 ->
  exists y,
    returned (_rec_2020_inverse_transfer_function value b) g = Ok y
    /\ 0 <= y <= 1
    /\ (value = 0 -> y = 0) /\ (value = 1 -> y = 1).
Proof.
  intros Hg [H0 H1]. unfold returned.
  pose proof (constants_range b) as [[Ha1 Ha2] [Hb1 Hb2]].
  destruct (Rlt_le_dec value (beta_ b)) as [H | H].
  - rewrite inverse_linear by assumption.
    eexists. split; [reflexivity | ]. repeat split; intros; lra.
  - rewrite inverse_power by assumption.
    eexists. split; [reflexivity | ].
    set (base := (value + (alpha_ b - 1)) / alpha_ b).
    assert (Hbase : 0 < base <= 1).
    { unfold base. split.
      - apply Rdiv_lt_0_compat; lra.
      - apply Rmult_le_reg_r with (alpha_ b); [lra | ].
        unfold Rdiv. rewrite Rmult_assoc, Rinv_l, Rmult_1_r by lra. lra. }
    assert (Hp : Rpower base (1 / 0.45) <= 1) by (apply Rpower_le_1; lra).
    assert (Hq : 0 < Rpower base (1 / 0.45)) by apply exp_pos.
    repeat split; try lra.
    intros E. assert (Hb : base = 1) by (unfold base; rewrite E; field; lra).
    rewrite Hb. unfold Rpower. rewrite ln_1, Rmult_0_r. apply exp_0.
Qed.

Lemma rec_2020_inverse_unit_interval_witness :
  exists y,
    returned (_rec_2020_inverse_transfer_function 1 false) globals_sample
    = Ok y
    /\ 0 <= y <= 1
    /\ (1 = 0 -> y = 0) /\ (1 = 1 -> y = 1).
Proof.
  apply (rec_2020_inverse_unit_interval globals_sample 1 false).
  - reflexivity.
  - lra.
Defined.

(** For a 10-bit system the transfer function is increasing over all
    floats: the power branch starts above the end of the linear branch. *)
Theorem rec_2020_transfer_increasing_10_bits (g : Globals) (x y : R) :
  rec_2020_loaded g -> x <= y ->
  exists fx fy,
    returned (_rec_2020_transfer_function x true) g = Ok fx
    /\ returned (_rec_2020_transfer_function y true) g = Ok fy
    /\ fx <= fy.
Proof.
  intros Hg Hxy. unfold returned.
  pose proof (Rpower_045_bounds true) as [Hlo _].
  simpl beta in Hlo.
  destruct (Rlt_le_dec x (beta_ true)) as [Hx | Hx];
    destruct (Rlt_le_dec y (beta_ true)) as [Hy | Hy];
    simpl beta in Hx, Hy.
  - rewrite !transfer_linear by assumption.
    do 2 eexists. repeat split. lra.
  - rewrite transfer_linear, transfer_power by assumption.
    do 2 eexists. repeat split. simpl alpha.
    assert (Hm : Rpower 0.018 0.45 <= Rpower y 0.45)
      by (apply Rle_Rpower_l; lra).
    cbn [fst]. lra.
  - lra.
  - rewrite !transfer_power by assumption.
    do 2 eexists. repeat split. simpl alpha.
    assert (Hm : Rpower x 0.45 <= Rpower y 0.45)
      by (apply Rle_Rpower_l; lra).
    cbn [fst]. lra.
Qed.

Lemma rec_2020_transfer_increasing_10_bits_witness :
  exists fx fy,
    returned (_rec_2020_transfer_function 0.01 true) globals_sample = Ok fx
    /\ returned (_rec_2020_transfer_function 0.5 true) globals_sample = Ok fy
    /\ fx <= fy.
Proof.
  apply (rec_2020_transfer_increasing_10_bits globals_sample 0.01 0.5).
  - reflexivity.
  - lra.
Defined.

(** With the 12-bit constants the transfer function drops at its
    breakpoint: every value from 0.0180996 up to the threshold 0.0181 is
    encoded higher than the threshold itself. *)
Theorem rec_2020_transfer_drops_12_bits (g : Globals) (x : R) :
  rec_2020_loaded g -> 0.0180996 <= x < 0.0181 ->
  exists fx fbeta,
    returned (_rec_2020_transfer_function x false) g = Ok fx
    /\ returned (_rec_2020_transfer_function 0.0181 false) g = Ok fbeta
    /\ fbeta < fx.
Proof.
  intros Hg [Hlo Hhi]. unfold returned.
  rewrite transfer_linear by (assumption || (simpl; lra)).
  rewrite transfer_power by (assumption || (simpl; lra)).
  do 2 eexists. repeat split. simpl alpha. cbn [fst].
  assert (Hp : Rpower 0.0181 0.45 < 0.164421).
  { rewrite exponent_045.
    apply Rpower_ratio_below; [lra | lia | lra | lra]. }
  lra.
Qed.

Lemma rec_2020_transfer_drops_12_bits_witness :
  exists fx fbeta,
    returned (_rec_2020_transfer_function 0.0180999 false) globals_sample
    = Ok fx
    /\ returned (_rec_2020_transfer_function 0.0181 false) globals_sample
       = Ok fbeta
    /\ fbeta < fx.
Proof.
  apply (rec_2020_transfer_drops_12_bits globals_sample 0.0180999).
  - reflexivity.
  - lra.
Defined.

(** The inverse transfer function is increasing over the floats up to
    1e138, for either setting: its jump at the threshold goes upwards.  Up
    to that bound its values stay below the largest double, so that the
    power does not overflow. *)
Theorem rec_2020_inverse_increasing (g : Globals) (x y : R) (b : bool) :
  rec_2020_loaded g -> x <= y -> y <= float_pow_range ->
  exists fx fy,
    returned (_rec_2020_inverse_transfer_function x b) g = Ok fx
    /\ returned (_rec_2020_inverse_transfer_function y b) g = Ok fy
    /\ fx <= fy /\ fy < float_max.
Proof.
  intros Hg Hxy Hmax. unfold returned.
  assert (Hbig : 1 < float_max) by (unfold float_max; lra).
  pose proof (constants_range b) as [[Ha1 Ha2] [Hb1 Hb2]].
  assert (Hmono : forall u w, beta_ b <= u -> u <= w ->
            Rpower ((u + (alpha_ b - 1)) / alpha_ b) (1 / 0.45)
            <= Rpower ((w + (alpha_ b - 1)) / alpha_ b) (1 / 0.45)).
  { intros u w Hu Huw. apply Rle_Rpower_l; [lra | ]. split.
    - apply Rdiv_lt_0_compat; lra.
    - apply Rmult_le_compat_r; [ | lra].
      left. apply Rinv_0_lt_compat. lra. }
  destruct (Rlt_le_dec x (beta_ b)) as [Hx | Hx];
    destruct (Rlt_le_dec y (beta_ b)) as [Hy | Hy].
  - rewrite !inverse_linear by assumption.
    do 2 eexists. repeat split; cbn [fst]; lra.
  - rewrite inverse_linear, inverse_power by assumption.
    do 2 eexists. repeat split; cbn [fst].
    + pose proof (inverse_power_at_beta_above b) as Hjump.
      pose proof (Hmono (beta_ b) y (Rle_refl _) Hy). lra.
    + now apply inverse_power_in_range.
  - lra.
  - rewrite !inverse_power by assumption.
    do 2 eexists. repeat split; cbn [fst].
    + now apply Hmono.
    + now apply inverse_power_in_range.
Qed.

Lemma rec_2020_inverse_increasing_witness :
  exists fx fy,
    returned (_rec_2020_inverse_transfer_function 0.01 false) globals_sample
    = Ok fx
    /\ returned (_rec_2020_inverse_transfer_function 0.5 false)
                globals_sample = Ok fy
    /\ fx <= fy /\ fy < float_max.
Proof.
  apply (rec_2020_inverse_increasing globals_sample 0.01 0.5 false).
  - reflexivity.
  - lra.
  - unfold float_pow_range. lra.
Defined.



(** ** osa_ucs.py: where XYZ_to_OSA_UCS is not finite *)

Lemma np_power_negative (r e : R) : r < 0 -> np_power (Some r) e = None.
Proof.
  intro H. unfold np_power. destruct (Rlt_dec r 0); [reflexivity | lra].
Qed.

Lemma np_mul_none_l (a : npfloat) : None [*] a = None.
Proof. reflexivity. Qed.

Lemma np_add_none_l (a : npfloat) : None [+] a = None.
Proof. reflexivity. Qed.

(** [XYZ_to_OSA_UCS] takes its cube roots as powers of [1 / 3], which are
    nan for a negative base.  With a finite [xyY]: when [Y_0] is negative
    none of [L], [j], [g] is finite, and when a component of
    [dot_vector(M_XYZ_TO_RGB_OSA_UCS, XYZ)] is negative neither [j] nor
    [g] is ([None] is an element that is not finite). *)
Theorem XYZ_to_OSA_UCS_not_finite_on_negative
    (XYZ_to_xyY : list npfloat -> Py (list npfloat)) (g : Globals)
    (X Y Z x y Y' : R) :
  xyY_frame XYZ_to_xyY ->
  M_XYZ_TO_RGB_OSA_UCS g = M_XYZ_TO_RGB_OSA_UCS_value ->
  returned (XYZ_to_xyY [#X; #Y; #Z]) g = Ok [#x; #y; #Y'] ->
  exists L j g_,
    returned (XYZ_to_OSA_UCS XYZ_to_xyY [#X; #Y; #Z]) g = Ok [L; j; g_]
    /\ (OSA_Y_0 x y Y' < 0 -> L = None /\ j = None /\ g_ = None)
    /\ (fst (fst (OSA_RGB X Y Z)) < 0
        \/ snd (fst (OSA_RGB X Y Z)) < 0
        \/ snd (OSA_RGB X Y Z) < 0 ->
        j = None /\ g_ = None).
Proof.
  intros Hframe HM Hxy.
  unfold XYZ_to_OSA_UCS.
  rewrite (returned_bind _ _ _ _ Hxy), (Hframe _ g).
  unfold returned, bind, tsplit, ret, read, dot_vector.
  rewrite HM. unfold M_XYZ_TO_RGB_OSA_UCS_value.
  cbn [map np_dot bind ret fst]. unfold bind, ret. cbn [fst tstack].
  do 3 eexists. split; [reflexivity | ].
  change (#Y' [*] ?e) with (Some (OSA_Y_0 x y Y')).
  change (#0.799 [*] #X [+] #0.4194 [*] #Y [+] #(-0.1648) [*] #Z)
    with (Some (fst (fst (OSA_RGB X Y Z)))).
  change (#(-0.4493) [*] #X [+] #1.3265 [*] #Y [+] #0.0927 [*] #Z)
    with (Some (snd (fst (OSA_RGB X Y Z)))).
  change (#(-0.1149) [*] #X [+] #0.3394 [*] #Y [+] #0.717 [*] #Z)
    with (Some (snd (OSA_RGB X Y Z))).
  set (r := OSA_Y_0 x y Y').
  set (R_ := fst (fst (OSA_RGB X Y Z))).
  set (G_ := snd (fst (OSA_RGB X Y Z))).
  set (B_ := snd (OSA_RGB X Y Z)).
  split.
  - intro Hneg. rewrite (np_power_negative r) by assumption.
    cbn [np_sub np_add np_mul np_div np_lift2 np_scalar].
    repeat split; reflexivity.
  - intros [H | [H | H]];
      [ rewrite (np_power_negative R_) by assumption
      | rewrite (np_power_negative G_) by assumption
      | rewrite (np_power_negative B_) by assumption ];
      repeat first [ rewrite np_mul_none_l | rewrite np_mul_none_r
                   | rewrite np_add_none_l | rewrite np_add_none_r ];
      split; reflexivity.
Qed.

Lemma XYZ_to_OSA_UCS_not_finite_on_negative_witness :
  exists L j g_,
    returned (XYZ_to_OSA_UCS XYZ_to_xyY_sample [#0; #0; #100])
             globals_sample = Ok [L; j; g_]
    /\ j = None /\ g_ = None.
Proof.
  destruct (XYZ_to_OSA_UCS_not_finite_on_negative
              XYZ_to_xyY_sample globals_sample
              0 0 100 (0 / 100) (0 / 100) 0 sample_xyY_frame eq_refl)
    as (L & j & g_ & Hr & _ & Hrgb).
  - unfold returned, XYZ_to_xyY_sample, ret, np_div, np_add, np_lift2,
      np_scalar. cbn [fst].
    destruct (Req_dec_T (0 + 0 + 100) 0) as [E | N]; [exfalso; lra | ].
    repeat f_equal; lra.
  - exists L, j, g_. split; [exact Hr | ].
    apply Hrgb. left. unfold OSA_RGB. cbn [fst]. lra.
Defined.

(** ** osa_ucs.py: the error function and the edge inputs of the inverse *)









(** An array whose number of elements is not a multiple of 3 is refused
    with ValueError before [fmin] is called, whatever the optimiser and the
    parameters; the module state is left as it was. *)
Theorem OSA_UCS_to_XYZ_refuses_size
    (XYZ_to_xyY : list npfloat -> Py (list npfloat))
    (fmin : (list npfloat -> Py npfloat) -> list npfloat -> dict ->
            Py (list npfloat))
    (Ljg : ndarray) (optimisation_parameters : option dict) (g : Globals) :
  (length (data Ljg) mod 3 <> 0)%nat ->
  OSA_UCS_to_XYZ XYZ_to_xyY fmin Ljg optimisation_parameters g
  = (Raise ValueError, g).
Proof.
  intro H. unfold OSA_UCS_to_XYZ, reshape_rows3, bind.
  now rewrite (proj2 (Nat.eqb_neq _ _) H).
Qed.

Lemma OSA_UCS_to_XYZ_refuses_size_witness :
  OSA_UCS_to_XYZ XYZ_to_xyY_sample fmin_sample
    {| shape := [2; 2]%nat; data := [#1; #2; #3; #4] |} None globals_sample
  = (Raise ValueError, globals_sample).
Proof.
  apply (OSA_UCS_to_XYZ_refuses_size XYZ_to_xyY_sample fmin_sample
           {| shape := [2; 2]%nat; data := [#1; #2; #3; #4] |}
           None globals_sample).
  discriminate.
Defined.

(** An empty array, of any shape, is returned as it is, and [fmin] is not
    called. *)
Theorem OSA_UCS_to_XYZ_empty
    (XYZ_to_xyY : list npfloat -> Py (list npfloat))
    (fmin : (list npfloat -> Py npfloat) -> list npfloat -> dict ->
            Py (list npfloat))
    (Ljg : ndarray) (optimisation_parameters : option dict) (g : Globals) :
  well_formed Ljg -> data Ljg = [] ->
  OSA_UCS_to_XYZ XYZ_to_xyY fmin Ljg optimisation_parameters g
  = (Ok Ljg, g).
Proof.
  intros Hwf He. unfold OSA_UCS_to_XYZ, reshape_rows3, bind.
  unfold well_formed in Hwf. rewrite He in *.
  cbn [length Nat.modulo Nat.eqb rows3 comprehension ret np_array Nat.divmod
       fst snd Nat.sub].
  unfold reshape. cbn [data length]. rewrite <- Hwf. cbn [Nat.eqb ret].
  destruct Ljg as [s d]. cbn in He. now subst d.
Qed.

Lemma OSA_UCS_to_XYZ_empty_witness :
  OSA_UCS_to_XYZ XYZ_to_xyY_sample fmin_sample
    {| shape := [0; 3]%nat; data := [] |} None globals_sample
  = (Ok {| shape := [0; 3]%nat; data := [] |}, globals_sample).
Proof.
  apply (OSA_UCS_to_XYZ_empty XYZ_to_xyY_sample fmin_sample
           {| shape := [0; 3]%nat; data := [] |} None globals_sample);
    reflexivity.
Defined.

Lemma dict_get_set (k k' : string) (v : py_value) (d : dict) :
  dict_get k (dict_set k' v d)
  = if String.eqb k k' then Some v else dict_get k d.
Proof.
  induction d as [ | [k0 v0] d IH]; cbn [dict_set dict_get].
  - reflexivity.
  - destruct (String.eqb k' k0) eqn:E0; cbn [dict_get].
    + apply String.eqb_eq in E0. subst k0.
      destruct (String.eqb k k'); reflexivity.
    + rewrite IH. destruct (String.eqb k k') eqn:E; [ | reflexivity].
      apply String.eqb_eq in E. subst k'. now rewrite E0.
Qed.

Lemma dict_get_absent (k : string) (d : dict) :
  ~ In k (map fst d) -> dict_get k d = None.
Proof.
  induction d as [ | [k0 v0] d IH]; cbn; intro H; [reflexivity | ].
  destruct (String.eqb k k0) eqn:E.
  - apply String.eqb_eq in E. subst k0. elim H. now left.
  - apply IH. intro Hin. apply H. now right.
Qed.

Lemma dict_get_update (k : string) (d u : dict) :
  NoDup (map fst u) ->
  dict_get k (dict_update d u)
  = match dict_get k u with
    | Some v => Some v
    | None => dict_get k d
    end.
Proof.
  unfold dict_update. revert d.
  induction u as [ | [k0 v0] u IH]; intros d Hnd; cbn [fold_left dict_get].
  - reflexivity.
  - cbn [map fst] in Hnd. inversion Hnd as [ | ? ? Hnotin Hnd']. subst.
    rewrite IH by assumption. cbn [fst snd].
    rewrite dict_get_set.
    destruct (String.eqb k k0) eqn:E.
    + apply String.eqb_eq in E. subst k0.
      now rewrite (dict_get_absent k u Hnotin).
    + reflexivity.
Qed.

(** The settings handed to [fmin]: every optimisation parameter the caller
    gave, with its value, and [disp=False] unless the caller set [disp]. *)
Theorem optimisation_settings_lookup (parameters : dict) (k : string) :
  NoDup (map fst parameters) ->
  dict_get k (optimisation_settings (Some parameters))
  = match dict_get k parameters with
    | Some v => Some v
    | None => if String.eqb k "disp" then Some (PyBool false) else None
    end.
Proof.
  intro H. unfold optimisation_settings. now rewrite dict_get_update.
Qed.

Lemma optimisation_settings_lookup_witness :
  dict_get "disp"
    (optimisation_settings
       (Some [("xtol"%string, PyFloat 0.5); ("disp"%string, PyBool true)]))
  = Some (PyBool true).
Proof.
  apply (optimisation_settings_lookup
           [("xtol"%string, PyFloat 0.5); ("disp"%string, PyBool true)]
           "disp").
  repeat constructor; cbn; intuition discriminate.
Defined.

(** ** verbose.py: further behaviour of message_box *)

Lemma sequence_first_raises {A : Type} (e : exn) (rs : list (result A)) :
  sequence (Raise e :: rs) = Raise e.
Proof. reflexivity. Qed.

(** When [width - padding * 2 - 2] is not positive, [message_box] prints
    the top rule and one blank line and then raises ValueError (from
    [TextWrapper.wrap]), whatever the message. *)
Theorem message_box_no_room
    (wrap_chunks : Z -> string -> list string)
    (message : string) (width padding : Z) :
  (width - padding * 2 - 2 <= 0)%Z ->
  message_box wrap_chunks message width padding
  = (Raise ValueError,
     [str_mul "="%char width; inner width padding ""]).
Proof.
  intro H. unfold message_box, wrapped_segments.
  pose proof (split_lines_nonempty message) as Hne.
  destruct (split_lines message) as [ | line lines]; [contradiction | ].
  cbn [map]. unfold TextWrapper_wrap at 1.
  rewrite (proj2 (Z.leb_le _ _) H). reflexivity.
Qed.

Lemma message_box_no_room_witness :
  message_box wrap_chunks_sample "Lorem ipsum" 8 3
  = (Raise ValueError, [str_mul "="%char 8; inner 8 3 ""]).
Proof.
  apply (message_box_no_room wrap_chunks_sample "Lorem ipsum" 8 3). lia.
Defined.

Lemma chain_lines_length (lines : list (list string)) :
  (length lines <= length (chain_lines lines))%nat.
Proof.
  unfold chain_lines. induction lines as [ | l lines IH]; cbn; [lia | ].
  rewrite length_app. destruct l; cbn; lia.
Qed.

Lemma Forall2_length_eq {A B : Type} (R : A -> B -> Prop)
    (xs : list A) (ys : list B) :
  Forall2 R xs ys -> length xs = length ys.
Proof. induction 1; cbn; congruence. Qed.

(** Every line of the message gets at least one line in the box (an empty
    one is shown as a single space), so a message with [n] line breaks is
    printed in at least [n + 5] lines. *)
Theorem message_box_keeps_every_line
    (wrap_chunks : Z -> string -> list string)
    (message : string) (width padding : Z) (segments : list string) :
  wrapped_segments wrap_chunks message width padding = Ok segments ->
  (1 <= length (split_lines message) <= length segments)%nat
  /\ length (snd (message_box wrap_chunks message width padding))
     = (4 + length segments)%nat.
Proof.
  intro H. split.
  - unfold wrapped_segments in H.
    destruct (sequence _) as [lines | e] eqn:E; [ | discriminate].
    injection H as <-. apply sequence_map_ok, Forall2_length_eq in E.
    pose proof (chain_lines_length lines).
    pose proof (split_lines_nonempty message).
    destruct (split_lines message); [contradiction | ]. cbn in *. lia.
  - unfold message_box. rewrite H. cbn [snd].
    repeat rewrite length_app. rewrite length_map. cbn. lia.
Qed.

Lemma message_box_keeps_every_line_witness :
  (1 <= length (split_lines "Lorem ipsum") <= length ["Lorem ipsum"%string])%nat
  /\ length (snd (message_box wrap_chunks_sample "Lorem ipsum" 20 3))
     = (4 + length ["Lorem ipsum"%string])%nat.
Proof.
  apply (message_box_keeps_every_line wrap_chunks_sample "Lorem ipsum" 20 3
           ["Lorem ipsum"%string]).
  reflexivity.
Defined.

(** The length of every printed line, fitting or not: for a padding that is
    not negative, the two rules and the two blank lines are [width] long and
    the line of a segment is [width] long when the segment fits and
    [len(segment) + 2 * padding + 2] long when it does not (a long word
    sticks out of the box by what it exceeds the room). *)
Theorem message_box_line_lengths
    (wrap_chunks : Z -> string -> list string)
    (message : string) (width padding : Z) (segments : list string) :
  tab_free_wrapper wrap_chunks ->
  (0 <= padding)%Z ->
  wrapped_segments wrap_chunks message width padding = Ok segments ->
  exists text_lines,
    snd (message_box wrap_chunks message width padding)
    = [str_mul "="%char width; inner width padding ""]
      ++ text_lines
      ++ [inner width padding ""; str_mul "="%char width]
    /\ len (str_mul "="%char width) = width
    /\ len (inner width padding "") = width
    /\ Forall2
         (fun segment line =>
            len line = Z.max width (len segment + 2 * padding + 2))
         segments text_lines.
Proof.
  intros Hwrap Hpad Hsegments.
  destruct (wrapped_segments_ok wrap_chunks Hwrap message width padding
              segments Hsegments) as [Hroom Hfree].
  unfold message_box. rewrite Hsegments. cbn [snd].
  exists (map (fun line => inner width padding (expandtabs line)) segments).
  split; [now rewrite <- app_assoc | ].
  split; [rewrite len_str_mul; lia | ].
  split; [rewrite len_inner; change (len "") with 0%Z; lia | ].
  clear Hsegments. induction segments as [ | segment segments IH];
    cbn [map]; constructor.
  - inversion Hfree as [ | ? ? Htab _]. unfold expandtabs.
    rewrite (expandtabs_from_tab_free _ _ Htab), len_inner. lia.
  - apply IH. now inversion Hfree.
Qed.

Lemma message_box_line_lengths_witness :
  exists text_lines,
    snd (message_box wrap_chunks_sample "Pneumonoultramicroscopic" 20 3)
    = [str_mul "="%char 20; inner 20 3 ""]
      ++ text_lines ++ [inner 20 3 ""; str_mul "="%char 20]
    /\ len (str_mul "="%char 20) = 20%Z
    /\ len (inner 20 3 "") = 20%Z
    /\ Forall2
         (fun segment line =>
            len line = Z.max 20 (len segment + 2 * 3 + 2))
         ["Pneumonoultramicroscopic"%string] text_lines.
Proof.
  apply (message_box_line_lengths wrap_chunks_sample
           "Pneumonoultramicroscopic" 20 3
           ["Pneumonoultramicroscopic"%string] wrap_chunks_sample_tab_free).
  - lia.
  - reflexivity.
Defined.

(** ** verbose.py: what the warning filters do *)

Lemma action_for_remove_first (w : issued) (e : filter_entry)
    (l : list filter_entry) :
  issubclass w (snd e) = false ->
  action_for w (remove_first e l) = action_for w l.
Proof.
  intro H. induction l as [ | [a c] l IH]; cbn [remove_first action_for];
    [reflexivity | ].
  destruct (filter_entry_eqb e (a, c)) eqn:E.
  - destruct e as [a' c']. cbn [snd] in H.
    assert (c' = c) as <-
      by (destruct a', c', a, c; cbn in E; congruence).
    now rewrite H.
  - cbn [action_for]. now rewrite IH.
Qed.

Lemma action_after_filter_warnings {O : Type}
    (state colour_warnings_only : bool) (s : interpreter O) (w : issued) :
  action_for w
    (current_filters (snd (filter_warnings state colour_warnings_only s)))
  = match w, colour_warnings_only with
    | issued_other, true => action_for w (current_filters s)
    | _, _ => if state then ignore else default
    end.
Proof.
  unfold filter_warnings, filterwarnings, current_filters.
  cbn [snd heap warnings_filters]. rewrite store_same.
  destruct w, colour_warnings_only; cbn [action_for issubclass];
    try reflexivity.
  now rewrite action_for_remove_first.
Qed.

(** [filter_warnings(state, colour_warnings_only)] returns [True] and
    decides what happens to the warnings issued from then on: a
    [ColourWarning] is ignored when [state] is true and shown by the
    default rule when it is false, whatever filters were installed before;
    any other warning is treated alike when [colour_warnings_only] is
    false, and as before the call when it is true. *)
Theorem filter_warnings_action {O : Type}
    (state colour_warnings_only : bool) (s : interpreter O) (w : issued) :
  fst (filter_warnings state colour_warnings_only s) = Ok true
  /\ action_for w
       (current_filters (snd (filter_warnings state colour_warnings_only s)))
     = match w, colour_warnings_only with
       | issued_other, true => action_for w (current_filters s)
       | _, _ => if state then ignore else default
       end.
Proof.
  split; [reflexivity | apply action_after_filter_warnings].
Qed.

(** The body of [with suppress_warnings(...)] runs with [ColourWarning]
    ignored (and every warning ignored when [colour_warnings_only] is
    false); the block ends as its body ends, by a return or by the
    exception the body raised; and on exit [warnings.showwarning] and the
    name [warnings.filters] are bound to the objects of before. *)
Theorem suppress_warnings_block {O : Type}
    (colour_warnings_only : bool) (body : block O) (s : interpreter O) :
  let entered := snd (filter_warnings true colour_warnings_only s) in
  let exit := suppress_warnings colour_warnings_only body s in
  action_for issued_ColourWarning (current_filters entered) = ignore
  /\ (colour_warnings_only = false ->
      action_for issued_other (current_filters entered) = ignore)
  /\ fst exit = fst (body entered)
  /\ warnings_showwarning (snd exit) = warnings_showwarning s
  /\ warnings_filters (snd exit) = warnings_filters s
  /\ np_printoptions (snd exit) = np_printoptions (snd (body entered)).
Proof.
  intros entered exit.
  split; [exact (action_after_filter_warnings true colour_warnings_only s
                   issued_ColourWarning) | ].
  split.
  { intros ->.
    exact (action_after_filter_warnings true false s issued_other). }
  unfold exit, suppress_warnings. fold entered.
  destruct (body entered) as [r s2]. cbn. repeat split.
Qed.
